(** * Binance Futures adapter: address builder, book-sync check, dispatch

    A shallow embedding of [cryptofeed/exchange/binance_futures.py]
    (classes [BinanceFutures] and [BinanceFuturesInstrument]) and the
    properties of its order-book consistency check, its open-interest
    normalizer, its message dispatcher, its streaming-address builder,
    its instrument parser and its connection set.

    Python dictionaries are finite maps ([gmap]); a Python exception is
    an explicit outcome that carries the adapter as it stands when the
    exception leaves the method. *)

From Stdlib Require Import ZArith String Ascii List Bool Lia.
From stdpp Require Import base option gmap strings list.

Local Open Scope Z_scope.

(** ** Strings *)

Module Str.

(** [str.lower()] and [str.upper()] on the ASCII range, which is where the
    exchange's symbols and stream names live. *)
Definition lower_char (c : ascii) : ascii :=
  let n := nat_of_ascii c in
  if ((65 <=? n) && (n <=? 90))%nat then ascii_of_nat (n + 32) else c.

Definition upper_char (c : ascii) : ascii :=
  let n := nat_of_ascii c in
  if ((97 <=? n) && (n <=? 122))%nat then ascii_of_nat (n - 32) else c.

Fixpoint map (f : ascii -> ascii) (s : string) : string :=
  match s with
  | EmptyString => EmptyString
  | String c s' => String (f c) (map f s')
  end.

Definition lower : string -> string := map lower_char.
Definition upper : string -> string := map upper_char.

(** [s[:-1]]: every character but the last; the empty string stays empty. *)
Fixpoint drop_last (s : string) : string :=
  match s with
  | EmptyString => EmptyString
  | String c EmptyString => EmptyString
  | String c s' => String c (drop_last s')
  end.

(** [s.split(sep, 1)]: the text before the first [sep] and the text after
    it, or [None] when [sep] does not occur (the split then has a single
    element). *)
Fixpoint split_once (sep : ascii) (s : string) : option (string * string) :=
  match s with
  | EmptyString => None
  | String c s' =>
      if Ascii.eqb c sep then Some (EmptyString, s')
      else match split_once sep s' with
           | Some (l, r) => Some (String c l, r)
           | None => None
           end
  end.

(** [sep.join(l)] *)
Fixpoint join (sep : string) (l : list string) : string :=
  match l with
  | [] => ""
  | [s] => s
  | s :: l' => s +:+ sep +:+ join sep l'
  end.

(** The strings of [l], one after the other. *)
Fixpoint cat (l : list string) : string :=
  match l with
  | [] => ""
  | s :: l' => s +:+ cat l'
  end.

(** [needle in hay] *)
Fixpoint occurs (needle hay : string) : bool :=
  String.prefix needle hay ||
  match hay with
  | EmptyString => false
  | String _ hay' => occurs needle hay'
  end.

End Str.

(** ** Configuration of a feed *)

(** The attributes of [self] that [_address] reads. [subscription] is a
    dict from channel to symbols; its iteration order is its insertion
    order, so it is kept as the list of its items. An empty list stands
    for a falsy [self.subscription]. *)
Record Feed := {
  id : string;
  ws_endpoint : string;
  channels : list string;
  symbols : list string;
  subscription : list (string * list string);
}.

Section Address.

(** The channel names of [cryptofeed.defines]. *)
Variables OPEN_INTEREST TICKER : string.

(** The outer loop's iteration, each channel with the symbols the inner
    loop ranges over: [self.channels] with [self.symbols] when there is no
    subscription, else the subscription's keys, each with
    [self.subscription[chan]]. *)
Definition channel_plan (f : Feed) : list (string * list string) :=
  match subscription f with
  | [] => List.map (fun chan => (chan, symbols f)) (channels f)
  | sub => sub
  end.

(** The body of the inner loop: the text appended for one pair. *)
Definition stream_of (chan pair : string) : string :=
  let pair := Str.lower pair in
  if decide (chan = TICKER) then pair +:+ "@bookTicker/"
  else pair +:+ "@" +:+ chan +:+ "/".

Definition _address (f : Feed) : option string :=
  let address := ws_endpoint f +:+ "/stream?streams=" in
  let address :=
    fold_left
      (fun address '(chan, pairs) =>
         if decide (chan = OPEN_INTEREST) then address
         else fold_left (fun address pair => address +:+ stream_of chan pair)
                        pairs address)
      (channel_plan f) address in
  if decide (address = ws_endpoint f +:+ "/stream?streams=") then None
  else Some (Str.drop_last address).

(** The pieces the two loops append, in order. *)
Definition pieces (plan : list (string * list string)) : list string :=
  flat_map
    (fun '(chan, pairs) =>
       if decide (chan = OPEN_INTEREST) then []
       else List.map (stream_of chan) pairs)
    plan.

(** The address as the specification words it: a stream name per
    streamable channel and symbol, joined by [/] after the endpoint. *)
Definition stream_name (chan pair : string) : string :=
  Str.lower pair +:+ "@" +:+ (if decide (chan = TICKER) then "bookTicker" else chan).

Definition streams (f : Feed) : list string :=
  flat_map
    (fun '(chan, pairs) =>
       if decide (chan = OPEN_INTEREST) then []
       else List.map (stream_name chan) pairs)
    (channel_plan f).

Definition address_spec (f : Feed) : option string :=
  match streams f with
  | [] => None
  | ss => Some (ws_endpoint f +:+ "/stream?streams=" +:+ Str.join "/" ss)
  end.

End Address.

(** ** Decoded messages *)

(** A value inside a decoded payload: JSON null, an integer, a string, or
    a list of price levels (price and quantity, both decimal strings). *)
Inductive field :=
| FNone
| FInt (n : Z)
| FStr (s : string)
| FLevels (l : list (string * string)).

(** A value of the top-level dict: a plain value or a nested payload. *)
Inductive jvalue :=
| JField (v : field)
| JObject (d : gmap string field).

Definition field_to_sum (v : field) : unit + (Z + (string + list (string * string))) :=
  match v with
  | FNone => inl tt
  | FInt n => inr (inl n)
  | FStr s => inr (inr (inl s))
  | FLevels l => inr (inr (inr l))
  end.

Definition field_of_sum (x : unit + (Z + (string + list (string * string)))) : field :=
  match x with
  | inl _ => FNone
  | inr (inl n) => FInt n
  | inr (inr (inl s)) => FStr s
  | inr (inr (inr l)) => FLevels l
  end.

Definition field_of_to_sum (v : field) : field_of_sum (field_to_sum v) = v :=
  match v with
  | FNone => eq_refl
  | FInt _ => eq_refl
  | FStr _ => eq_refl
  | FLevels _ => eq_refl
  end.

#[global] Instance field_eq_dec : EqDecision field.
Proof. solve_decision. Defined.

#[global] Instance field_countable : Countable field :=
  inj_countable' field_to_sum field_of_sum field_of_to_sum.

#[global] Instance jvalue_eq_dec : EqDecision jvalue.
Proof. solve_decision. Defined.

(** [receipt timestamp]: an IEEE double kept as its 64 bits; the adapter
    only hands it on. *)
Definition pyfloat := Z.

(** The identity of the connection a message arrived on. *)
Definition conn_id := string.

(** ** Effects *)

(** An argument of a logging call. *)
Inductive logarg :=
| ArgStr (s : string)
| ArgMsg (m : gmap string field).

(** The calls that leave this class, in the order they are made: the
    logger, the downstream callback, and the methods inherited from the
    parent adapter. For the open-interest callback [symbol] and
    [timestamp] are what [symbol_exchange_to_std] and
    [timestamp_normalize] returned; its receipt timestamp, the wall
    clock, is left out. *)
Inductive event :=
| LogWarning (fmt : string) (args : list logarg)
| Callback (channel feed symbol : string) (open_interest : jvalue) (timestamp : pyfloat)
| CallReset
| Ticker (msg : gmap string field) (timestamp : pyfloat)
| Book (conn : conn_id) (msg : gmap string field) (pair : string) (timestamp : pyfloat)
| Trade (msg : gmap string field) (timestamp : pyfloat)
| Liquidations (msg : gmap string field) (timestamp : pyfloat)
| Funding (msg : gmap string field) (timestamp : pyfloat)
| Candle (msg : gmap string field) (timestamp : pyfloat).

(** A locally held book: bids and asks. *)
Definition book : Type := list (string * string) * list (string * string).

(** The mutable attributes of [self], and the trace of calls made so
    far (oldest first). *)
Record Adapter := {
  forced : gmap string bool;
  last_update_id : gmap string Z;
  l2_book : gmap string book;
  open_interest : gmap field jvalue;
  trace : list event;
}.

Inductive exn :=
| KeyError (key : string)
| AttributeError
| ValueError
| TypeError.

(** How a method ends: it returns, or an exception leaves it. *)
Inductive outcome (A : Type) :=
| Returns (x : A) (a : Adapter)
| Raises (e : exn) (a : Adapter).
Arguments Returns {A} x a.
Arguments Raises {A} e a.

Definition final {A} (o : outcome A) : Adapter :=
  match o with Returns _ a => a | Raises _ a => a end.

(** How a call that reads no attribute of [self] ends. *)
Inductive tried (A : Type) :=
| Done (x : A)
| Failed (e : exn).
Arguments Done {A} x.
Arguments Failed {A} e.

Module Py.

Definition M (A : Type) : Type := Adapter -> outcome A.

Definition ret {A} (x : A) : M A := fun a => Returns x a.

Definition bind {A B} (m : M A) (k : A -> M B) : M B :=
  fun a => match m a with
           | Returns x a' => k x a'
           | Raises e a' => Raises e a'
           end.

Definition raise {A} (e : exn) : M A := fun a => Raises e a.

Definition gets {A} (f : Adapter -> A) : M A := fun a => Returns (f a) a.

Definition modify (f : Adapter -> Adapter) : M unit := fun a => Returns tt (f a).

(** [d[k]] on a dict with string keys. *)
Definition item {V} (d : gmap string V) (k : string) : M V :=
  match d !! k with
  | Some v => ret v
  | None => raise (KeyError k)
  end.

(** One more call on the trace. *)
Definition record (e : event) (a : Adapter) : Adapter :=
  {| forced := forced a; last_update_id := last_update_id a;
     l2_book := l2_book a; open_interest := open_interest a;
     trace := trace a ++ [e] |}.

Definition emit (e : event) : M unit := modify (record e).

(** A call outside [self]: its result, or its exception. *)
Definition call {A} (r : tried A) : M A :=
  match r with
  | Done x => ret x
  | Failed e => raise e
  end.

End Py.

#[global] Instance py_ret : MRet Py.M := @Py.ret.
#[global] Instance py_bind : MBind Py.M := fun A B k m => Py.bind m k.

(** ** The order-book consistency check *)

(** [self.forced[pair]]. Modelled from the spec: the attribute is created
    by the parent adapter, which is not among the sources; a symbol starts
    Unsynced, so a symbol without an entry reads as [False]. *)
Definition is_forced (a : Adapter) (pair : string) : bool :=
  default false (forced a !! pair).

(** [self.last_update_id[pair]] *)
Definition last_id (pair : string) : Py.M Z :=
  fun a => Py.item (last_update_id a) pair a.

(** [self.last_update_id[pair] = u] *)
Definition store_last_id (pair : string) (u : Z) (a : Adapter) : Adapter :=
  {| forced := forced a; last_update_id := <[pair := u]> (last_update_id a);
     l2_book := l2_book a; open_interest := open_interest a;
     trace := trace a |}.

Definition set_last_id (pair : string) (u : Z) : Py.M unit :=
  Py.modify (store_last_id pair u).

(** [self.forced[pair] = b] *)
Definition store_forced (pair : string) (b : bool) (a : Adapter) : Adapter :=
  {| forced := <[pair := b]> (forced a); last_update_id := last_update_id a;
     l2_book := l2_book a; open_interest := open_interest a;
     trace := trace a |}.

Definition set_forced (pair : string) (b : bool) : Py.M unit :=
  Py.modify (store_forced pair b).

(** Modelled from the spec: [_reset] is inherited from the parent adapter
    [Binance], which is not among the sources. The call [self._reset()]
    hands it no symbol. Following the resync action of the specification
    it invalidates the locally held books and resets the local state so
    that the next accepted diff must again satisfy the Unsynced-state
    bracketing condition; handed no symbol, it cannot single one out, so
    it does so for every symbol. The open-interest cache is mutated only
    by its normalizer. *)
Definition reset_state (a : Adapter) : Adapter :=
  {| forced := ∅; last_update_id := last_update_id a;
     l2_book := ∅; open_interest := open_interest a;
     trace := trace a ++ [CallReset] |}.

Definition _reset : Py.M unit := Py.modify reset_state.

Definition missing_update_warning (self : Feed) : event :=
  LogWarning "%s: Missing book update detected, resetting book" [ArgStr (id self)].

(** [_check_update_id(self, pair, msg)]; [msg] is the diff payload, whose
    update ids [U], [u] and [pu] are integers. The result is
    [(skip_update, forced)]. *)
Definition _check_update_id (self : Feed) (pair : string) (msg : gmap string Z)
  : Py.M (bool * bool) :=
  flag ← Py.gets (fun a => is_forced a pair);
  let forced := negb flag in
  stale ← (if forced then
             u ← Py.item msg "u"; l ← last_id pair; Py.ret (u <? l)
           else Py.ret false);
  if stale : bool then Py.ret (true, forced)
  else
    bracket ← (if forced then
                 U ← Py.item msg "U"; l ← last_id pair;
                 if U <=? l then u ← Py.item msg "u"; Py.ret (l <=? u)
                 else Py.ret false
               else Py.ret false);
    if bracket : bool then
      u ← Py.item msg "u"; set_last_id pair u;;
      set_forced pair true;;
      Py.ret (false, forced)
    else
      continuous ← (if negb forced then
                      l ← last_id pair; pu ← Py.item msg "pu"; Py.ret (l =? pu)
                    else Py.ret false);
      if continuous : bool then
        u ← Py.item msg "u"; set_last_id pair u;;
        Py.ret (false, forced)
      else
        _reset;;
        Py.emit (missing_update_warning self);;
        Py.ret (true, forced).

(** ** The open-interest normalizer *)

(** The key a value hashes to in a dict; lists and dicts are unhashable. *)
Definition hash_key (v : jvalue) : option field :=
  match v with
  | JField (FLevels _) => None
  | JField k => Some k
  | JObject _ => None
  end.

(** [self.open_interest.get(pair, None)] *)
Definition cached (a : Adapter) (k : field) : jvalue :=
  default (JField FNone) (open_interest a !! k).

Definition cache_get (pair : jvalue) : Py.M jvalue :=
  match hash_key pair with
  | Some k => Py.gets (fun a => cached a k)
  | None => Py.raise TypeError
  end.

(** [self.open_interest[pair] = oi] *)
Definition store_open_interest (k : field) (oi : jvalue) (a : Adapter) : Adapter :=
  {| forced := forced a; last_update_id := last_update_id a;
     l2_book := l2_book a;
     open_interest := <[k := oi]> (open_interest a);
     trace := trace a |}.

Definition cache_set (pair oi : jvalue) : Py.M unit :=
  match hash_key pair with
  | Some k => Py.modify (store_open_interest k oi)
  | None => Py.raise TypeError
  end.

Section Dispatch.

Variable OPEN_INTEREST : string.

(** The two functions of [cryptofeed.standards], which is not among the
    sources: each returns or raises. [timestamp_normalize] takes the feed
    id and the exchange time. *)
Variable symbol_exchange_to_std : jvalue -> tried string.
Variable timestamp_normalize : string -> jvalue -> tried pyfloat.

(** [_open_interest(self, msg, timestamp)]; [msg] is the polled response
    [{openInterest, symbol, time}]. The arguments of the callback are
    evaluated in the order they are written. *)
Definition _open_interest (self : Feed) (msg : gmap string jvalue) (timestamp : pyfloat)
  : Py.M unit :=
  pair ← Py.item msg "symbol";
  oi ← Py.item msg "openInterest";
  cached ← cache_get pair;
  if decide (oi ≠ cached) then
    symbol ← Py.call (symbol_exchange_to_std pair);
    time ← Py.item msg "time";
    timestamp ← Py.call (timestamp_normalize (id self) time);
    Py.emit (Callback OPEN_INTEREST (id self) symbol oi timestamp);;
    cache_set pair oi
  else Py.ret tt.

(** ** The message dispatcher *)

(** [message_handler(self, msg, conn, timestamp)], from the decoded
    message on: [msg] is the dict that [json.loads] returned. *)
Definition message_handler (self : Feed) (msg : gmap string jvalue)
    (conn : conn_id) (timestamp : pyfloat) : Py.M unit :=
  if decide (is_Some (msg !! "openInterest")) then
    _open_interest self msg timestamp
  else
    stream ← Py.item msg "stream";
    parts ← match stream with
            | JField (FStr s) => Py.ret (Str.split_once "@" s)
            | _ => Py.raise AttributeError
            end;
    match parts with
    | None => Py.raise ValueError
    | Some (symbol, _) =>
        data ← Py.item msg "data";
        let pair := Str.upper symbol in
        match data with
        | JField _ => Py.raise AttributeError
        | JObject msg =>
            let msg_type := default FNone (msg !! "e") in
            if decide (msg_type = FStr "bookTicker") then
              Py.emit (Ticker msg timestamp)
            else if decide (msg_type = FStr "depthUpdate") then
              Py.emit (Book conn msg pair timestamp)
            else if decide (msg_type = FStr "aggTrade") then
              Py.emit (Trade msg timestamp)
            else if decide (msg_type = FStr "forceOrder") then
              Py.emit (Liquidations msg timestamp)
            else if decide (msg_type = FStr "markPriceUpdate") then
              Py.emit (Funding msg timestamp)
            else
              e ← Py.item msg "e";
              if decide (e = FStr "kline") then
                Py.emit (Candle msg timestamp)
              else
                Py.emit (LogWarning "%s: Unexpected message received: %s"
                           [ArgStr (id self); ArgMsg msg])
        end
    end.

End Dispatch.

(** ** What a trace says *)

(** The calls that hand an event on: the inherited normalizers and the
    open-interest callback. *)
Definition is_normalizer (e : event) : bool :=
  match e with
  | LogWarning _ _ | CallReset => false
  | _ => true
  end.


(** A logging call names a symbol when the symbol occurs in its format
    string or in one of its string arguments. *)
Definition names (pair : string) (e : event) : bool :=
  match e with
  | LogWarning fmt args =>
      Str.occurs pair fmt ||
      existsb (fun arg => match arg with
                          | ArgStr s => Str.occurs pair s
                          | ArgMsg _ => false
                          end) args
  | _ => false
  end.

(** The two states of a symbol. *)
Definition synced (a : Adapter) (pair : string) : Prop := is_forced a pair = true.
Definition unsynced (a : Adapter) (pair : string) : Prop := is_forced a pair = false.

(** The resync: the reset, then the warning. *)
Definition resync (self : Feed) (a : Adapter) : Adapter :=
  Py.record (missing_update_warning self) (reset_state a).

(** The ways a call of [_check_update_id] can go, read off its branches. *)
Inductive transition (self : Feed) (pair : string) (msg : gmap string Z) (a : Adapter)
  : outcome (bool * bool) -> Prop :=
| T_stale u l :
    unsynced a pair -> msg !! "u" = Some u -> last_update_id a !! pair = Some l ->
    u < l ->
    transition self pair msg a (Returns (true, true) a)
| T_bracket U u l :
    unsynced a pair -> msg !! "U" = Some U -> msg !! "u" = Some u ->
    last_update_id a !! pair = Some l -> U <= l <= u ->
    transition self pair msg a
      (Returns (false, true) (store_forced pair true (store_last_id pair u a)))
| T_continue u l :
    synced a pair -> last_update_id a !! pair = Some l ->
    msg !! "pu" = Some l -> msg !! "u" = Some u ->
    transition self pair msg a (Returns (false, false) (store_last_id pair u a))
| T_gap pu l :
    synced a pair -> last_update_id a !! pair = Some l ->
    msg !! "pu" = Some pu -> pu <> l ->
    transition self pair msg a (Returns (true, false) (resync self a))
| T_ahead U u l :
    unsynced a pair -> msg !! "U" = Some U -> msg !! "u" = Some u ->
    last_update_id a !! pair = Some l -> l <= u -> l < U ->
    transition self pair msg a (Returns (true, true) (resync self a))
| T_raise key :
    (msg !! key = None \/ (key = pair /\ last_update_id a !! pair = None)) ->
    transition self pair msg a (Raises (KeyError key) a).


(** The ids of a diff increase: its final id [u] lies above [pu], the
    final id of the diff before it. *)
Definition ordered_ids (msg : gmap string Z) : Prop :=
  forall pu u, msg !! "pu" = Some pu -> msg !! "u" = Some u -> pu < u.

(** [s.isascii()] *)
Fixpoint is_ascii (s : string) : bool :=
  match s with
  | EmptyString => true
  | String c s' => (nat_of_ascii c <? 128)%nat && is_ascii s'
  end.

(** ** Sample data *)

Module Sample.

Definition feed : Feed :=
  {| id := "BINANCE_FUTURES"; ws_endpoint := "wss://fstream.binance.com";
     channels := ["ticker"; "open_interest"; "aggTrade"];
     symbols := ["BTCUSDT"; "ETHUSDT"]; subscription := [] |}.

(** Two symbols, seeded by their snapshots, neither synced yet. *)
Definition seeded : Adapter :=
  {| forced := ∅;
     last_update_id := <["BTCUSDT" := 100]> (<["ETHUSDT" := 7]> ∅);
     l2_book := ∅; open_interest := ∅; trace := [] |}.

(** Both symbols synced. *)
Definition running : Adapter :=
  {| forced := <["BTCUSDT" := true]> (<["ETHUSDT" := true]> ∅);
     last_update_id := <["BTCUSDT" := 103]> (<["ETHUSDT" := 7]> ∅);
     l2_book := ∅; open_interest := ∅; trace := [] |}.

Definition diff (U u pu : Z) : gmap string Z :=
  <["U" := U]> (<["u" := u]> (<["pu" := pu]> ∅)).

Definition poll (symbol oi : string) : gmap string jvalue :=
  <["openInterest" := JField (FStr oi)]>
    (<["symbol" := JField (FStr symbol)]> (<["time" := JField (FInt 1589437530011)]> ∅)).

Definition envelope (stream : string) (data : gmap string field) : gmap string jvalue :=
  <["stream" := JField (FStr stream)]> (<["data" := JObject data]> ∅).

(** Collaborators to run the examples with: a symbol must be a string and
    is kept as it is, a time must be an integer and is kept as it is. *)
Definition std (v : jvalue) : tried string :=
  match v with
  | JField (FStr s) => Done s
  | _ => Failed TypeError
  end.

Definition norm (feed_id : string) (v : jvalue) : tried pyfloat :=
  match v with
  | JField (FInt t) => Done t
  | _ => Failed TypeError
  end.

End Sample.

(** ** Instruments *)

(** [s.split(sep)] for a one-character separator: the segments between
    the separators, always at least one. *)
Fixpoint split (sep : ascii) (s : string) : list string :=
  match s with
  | EmptyString => [EmptyString]
  | String c s' =>
      if Ascii.eqb c sep then EmptyString :: split sep s'
      else match split sep s' with
           | seg :: rest => String c seg :: rest
           | [] => [String c EmptyString]
           end
  end.

(** A character does not occur in a string. *)
Definition free (c : ascii) (s : string) : Prop := Str.split_once c s = None.

(** How a constructor ends: with the object, or with the [IndexError] of
    a list index out of range. *)
Inductive created (A : Type) :=
| Created (x : A)
| IndexError.
Arguments Created {A} x.
Arguments IndexError {A}.

Module Instrument.

(** The attributes of a [BinanceFuturesInstrument]; [expiry_date_str] is
    set only for a future. *)
Record t := {
  instrument_name : string;
  pair : string;
  base : string;
  quote : string;
  instrument_type : string;
  expiry_date_str : option string;
}.

Section Init.

(** The contract kinds of [cryptofeed.defines]. *)
Variables PERPETURAL FUTURE : string.

(** [BinanceFuturesInstrument.__init__(self, instrument_name)] *)
Definition __init__ (name : string) : created t :=
  let instrument_properties := split "_" name in
  match instrument_properties with
  | [] => IndexError
  | p0 :: rest =>
      match split "-" p0 with
      | b :: q :: _ =>
          Created
            {| instrument_name := name;
               pair := p0;
               base := b;
               quote := q;
               instrument_type := match rest with [] => PERPETURAL | _ :: _ => FUTURE end;
               expiry_date_str := match rest with [] => None | e :: _ => Some e end |}
      | _ => IndexError
      end
  end.

(** [BinanceFutures.get_instrument_objects()], from the list that
    [get_instruments()] returned. *)
Fixpoint get_instrument_objects (instruments : list string) : created (list t) :=
  match instruments with
  | [] => Created []
  | instrument :: rest =>
      match __init__ instrument with
      | IndexError => IndexError
      | Created o =>
          match get_instrument_objects rest with
          | IndexError => IndexError
          | Created os => Created (o :: os)
          end
      end
  end.

End Init.

End Instrument.

(** ** Construction and connections *)

(** The adapter once constructed: the feed, with the endpoints and the
    address that [__init__] sets. *)
Record BinanceFutures := {
  feed : Feed;
  rest_endpoint : string;
  address : option string;
}.

(** [self.subscription[k]], the dict kept as the list of its items. The
    parent creates it as a dict with a default, so a channel without an
    entry reads as no symbols. *)
Fixpoint assoc (k : string) (d : list (string * list string)) : list string :=
  match d with
  | [] => []
  | (k', v) :: d' => if decide (k' = k) then v else assoc k d'
  end.

(** The truth value of [self.address]: [None] and the empty string are
    false. *)
Definition truthy (address : option string) : bool :=
  match address with
  | Some (String _ _) => true
  | _ => false
  end.

Section Connect.

Variables OPEN_INTEREST TICKER : string.

(** The connection triples that [super().connect()] returns. *)
Variable inherited : Type.
Variable super_connect : list inherited.

(** A triple of [connect]'s result: one the parent built, or the polling
    connection [(AsyncConnection(addrs, self.id, delay=60.0, sleep=1.0,
    **self.ws_defaults), self.subscribe, self.message_handler)], its delay
    and sleep in whole seconds; the parent's keyword defaults are left
    out. *)
Inductive connection :=
| Inherited (c : inherited)
| Polling (addrs : list string) (ident : string) (delay sleep : Z).

(** [BinanceFutures.__init__], from the feed as the parent's constructor
    left it. *)
Definition init (f : Feed) : BinanceFutures :=
  let f' := {| id := id f; ws_endpoint := "wss://fstream.binance.com";
               channels := channels f; symbols := symbols f;
               subscription := subscription f |} in
  {| feed := f';
     rest_endpoint := "https://fapi.binance.com/fapi/v1";
     address := _address OPEN_INTEREST TICKER f' |}.

(** The address polled for one pair. *)
Definition open_interest_url (b : BinanceFutures) (pair : string) : string :=
  rest_endpoint b +:+ "/openInterest?symbol=" +:+ pair.

(** [self.channels or self.subscription], as iterated. *)
Definition connect_channels (f : Feed) : list string :=
  match channels f with
  | [] => List.map fst (subscription f)
  | chans => chans
  end.

(** [self.symbols or self.subscription[chan]] *)
Definition connect_symbols (f : Feed) (chan : string) : list string :=
  match symbols f with
  | [] => assoc chan (subscription f)
  | pairs => pairs
  end.

(** [connect(self)]. The two [set(...)] are finite sets; Python leaves
    their iteration order open and [elements] fixes one. *)
Definition connect (b : BinanceFutures) : list connection :=
  let ret := if truthy (address b) then List.map Inherited super_connect else [] in
  fold_left
    (fun ret chan =>
       if decide (chan = "open_interest") then
         let addrs :=
           List.map (open_interest_url b)
             (elements (list_to_set (connect_symbols (feed b) chan) : gset string)) in
         ret ++ [Polling addrs (id (feed b)) 60 1]
       else ret)
    (elements (list_to_set (connect_channels (feed b)) : gset string))
    ret.

End Connect.

(** * Properties *)

(** ** Worked examples *)

Example address_sample :
  _address "open_interest" "ticker" Sample.feed
  = Some "wss://fstream.binance.com/stream?streams=btcusdt@bookTicker/ethusdt@bookTicker/btcusdt@aggTrade/ethusdt@aggTrade".
Proof. reflexivity. Qed.

Example address_subscription :
  _address "open_interest" "ticker"
    {| id := "BINANCE_FUTURES"; ws_endpoint := "wss://fstream.binance.com";
       channels := []; symbols := [];
       subscription := [("depth@100ms", ["BTCUSDT"]); ("open_interest", ["ETHUSDT"])] |}
  = Some "wss://fstream.binance.com/stream?streams=btcusdt@depth@100ms".
Proof. reflexivity. Qed.

Example address_polling_only :
  _address "open_interest" "ticker"
    {| id := "BINANCE_FUTURES"; ws_endpoint := "wss://fstream.binance.com";
       channels := ["open_interest"]; symbols := ["BTCUSDT"]; subscription := [] |}
  = None.
Proof. reflexivity. Qed.

(** The scenario of the specification: the snapshot seeds 100; diff A
    brackets it, diff B continues, diff C leaves a gap. *)
Example scenario :
  exists a1 a2 a3,
    _check_update_id Sample.feed "BTCUSDT" (<["U" := 95]> (<["u" := 101]> ∅)) Sample.seeded
      = Returns (false, true) a1 /\
    last_update_id a1 !! "BTCUSDT" = Some 101 /\
    _check_update_id Sample.feed "BTCUSDT" (Sample.diff 102 103 101) a1
      = Returns (false, false) a2 /\
    last_update_id a2 !! "BTCUSDT" = Some 103 /\
    _check_update_id Sample.feed "BTCUSDT" (Sample.diff 105 106 104) a2
      = Returns (true, false) a3 /\
    is_forced a3 "BTCUSDT" = false.
Proof.
  do 3 eexists.
  split_and!; [vm_compute; reflexivity | reflexivity | vm_compute; reflexivity
              | reflexivity | vm_compute; reflexivity | reflexivity].
Qed.

Example split_stream : Str.split_once "@" "btcusdt@depth@100ms" = Some ("btcusdt", "depth@100ms").
Proof. reflexivity. Qed.

Example split_no_separator : Str.split_once "@" "btcusdt" = None.
Proof. reflexivity. Qed.

(** ** The consistency check *)

Ltac py_unfold :=
  unfold _check_update_id, last_id, set_last_id, set_forced, _reset,
    Py.item, Py.emit, Py.modify, Py.gets, Py.raise,
    mbind, mret, py_bind, py_ret, Py.bind, Py.ret in *.

Ltac py_run := py_unfold; cbn beta iota.

Ltac close_transition :=
  first
    [ by (eapply T_stale; eauto; lia)
    | by (eapply T_bracket; eauto; lia)
    | by (eapply T_continue; eauto)
    | by (eapply T_gap; eauto)
    | by (eapply T_ahead; eauto; lia)
    | by (apply T_raise; left)
    | by (apply T_raise; right) ].

(** Every call goes one of the six ways. *)
Lemma check_update_id_transition (self : Feed) (pair : string) (msg : gmap string Z)
    (a : Adapter) :
  transition self pair msg a (_check_update_id self pair msg a).
Proof.
  py_run.
  destruct (is_forced a pair) eqn:Hf;
    destruct (msg !! "u") as [u|] eqn:Hu;
    destruct (msg !! "U") as [U|] eqn:HU;
    destruct (msg !! "pu") as [pu|] eqn:Hpu;
    destruct (last_update_id a !! pair) as [l|] eqn:Hl;
    cbn; rewrite ?Hl; cbn; try close_transition;
    repeat match goal with
           | |- context [Z.ltb ?x ?y] => destruct (Z.ltb_spec x y); cbn; rewrite ?Hl; cbn
           | |- context [Z.leb ?x ?y] => destruct (Z.leb_spec x y); cbn; rewrite ?Hl; cbn
           | |- context [Z.eqb ?x ?y] => destruct (Z.eqb_spec x y); subst; cbn; rewrite ?Hl; cbn
           end;
    try close_transition; try lia.
Qed.

(** A call that does not resync leaves every other symbol, and the
    trace, as they were. *)
Lemma other_symbols_untouched (self : Feed) (pair : string) (msg : gmap string Z)
    (a : Adapter) (q : string) :
  q <> pair ->
  let o := _check_update_id self pair msg a in
  final o = resync self a \/
  (is_forced (final o) q = is_forced a q /\
   last_update_id (final o) !! q = last_update_id a !! q /\
   trace (final o) = trace a).
Proof.
  intros Hq o.
  pose proof (check_update_id_transition self pair msg a) as T. fold o in T.
  destruct T; cbn [final]; try (by left); right; try done.
  - unfold is_forced, store_forced, store_last_id. cbn [forced last_update_id trace].
    by rewrite !lookup_insert_ne.
  - unfold is_forced, store_last_id. cbn [forced last_update_id trace].
    by rewrite lookup_insert_ne.
Qed.

Ltac py_step :=
  match goal with
  | H : _ !! _ = _ |- _ => progress (rewrite H; cbn)
  | H : is_forced _ _ = _ |- _ => progress (rewrite H; cbn)
  | |- context [Z.ltb ?x ?y] => destruct (Z.ltb_spec x y); try lia; cbn
  | |- context [Z.leb ?x ?y] => destruct (Z.leb_spec x y); try lia; cbn
  | |- context [Z.eqb ?x ?y] => destruct (Z.eqb_spec x y); try congruence; cbn
  end.

Ltac py_eval :=
  py_run; unfold synced, unsynced in *; repeat py_step; try reflexivity.

(** A gap on a synced symbol ends in the resync. *)
Lemma gap_outcome (self : Feed) (pair : string) (msg : gmap string Z)
    (a : Adapter) (pu l : Z) :
  synced a pair ->
  last_update_id a !! pair = Some l ->
  msg !! "pu" = Some pu ->
  pu <> l ->
  _check_update_id self pair msg a = Returns (true, false) (resync self a).
Proof. intros Hf Hl Hpu Hne. py_eval. Qed.

Lemma trace_resync (self : Feed) (a : Adapter) :
  trace (resync self a) = trace a ++ [CallReset; missing_update_warning self].
Proof.
  unfold resync, reset_state, Py.record. cbn [trace]. by rewrite <- app_assoc.
Qed.

(** C1. A diff received while the symbol is Unsynced whose range brackets
    the snapshot boundary, [U <= lastUpdateId <= u], is applied (skip is
    false), sets the symbol's lastUpdateId to [u] and moves the symbol to
    Synced. *)
Theorem check_update_id_bracketing (self : Feed) (pair : string) (msg : gmap string Z)
    (a : Adapter) (U u l : Z) :
  unsynced a pair ->
  last_update_id a !! pair = Some l ->
  msg !! "U" = Some U ->
  msg !! "u" = Some u ->
  U <= l <= u ->
  let a' := store_forced pair true (store_last_id pair u a) in
  _check_update_id self pair msg a = Returns (false, true) a' /\
  last_update_id a' !! pair = Some u /\
  synced a' pair.
Proof.
  intros Hf Hl HU Hu [HUl Hlu] a'. split_and!.
  - py_eval.
  - cbn. apply lookup_insert_eq.
  - unfold synced, is_forced. cbn. by rewrite lookup_insert_eq.
Qed.

Lemma check_update_id_bracketing_witness :
  unsynced Sample.seeded "BTCUSDT" /\
  exists a', _check_update_id Sample.feed "BTCUSDT" (Sample.diff 95 101 0) Sample.seeded
               = Returns (false, true) a' /\
             last_update_id a' !! "BTCUSDT" = Some 101 /\ synced a' "BTCUSDT".
Proof.
  split; [reflexivity|]. eexists.
  apply (check_update_id_bracketing Sample.feed "BTCUSDT" (Sample.diff 95 101 0)
           Sample.seeded 95 101 100); [reflexivity | reflexivity | reflexivity | reflexivity | lia].
Defined.

(** C2. A diff received while the symbol is Synced whose [pu] equals the
    symbol's lastUpdateId is applied (skip is false), moves lastUpdateId
    to the diff's [u], and the symbol stays Synced. *)
Theorem check_update_id_continuity (self : Feed) (pair : string) (msg : gmap string Z)
    (a : Adapter) (u l : Z) :
  synced a pair ->
  last_update_id a !! pair = Some l ->
  msg !! "pu" = Some l ->
  msg !! "u" = Some u ->
  let a' := store_last_id pair u a in
  _check_update_id self pair msg a = Returns (false, false) a' /\
  last_update_id a' !! pair = Some u /\
  synced a' pair.
Proof.
  intros Hf Hl Hpu Hu a'. split_and!.
  - py_eval.
  - cbn. apply lookup_insert_eq.
  - exact Hf.
Qed.

Lemma check_update_id_continuity_witness :
  synced Sample.running "BTCUSDT" /\
  exists a', _check_update_id Sample.feed "BTCUSDT" (Sample.diff 104 105 103) Sample.running
               = Returns (false, false) a' /\
             last_update_id a' !! "BTCUSDT" = Some 105 /\ synced a' "BTCUSDT".
Proof.
  split; [reflexivity|]. eexists.
  apply (check_update_id_continuity Sample.feed "BTCUSDT" (Sample.diff 104 105 103)
           Sample.running 105 103); reflexivity.
Defined.



(** C4. A diff received while the symbol is Unsynced whose [u] is below
    the symbol's lastUpdateId is skipped and nothing changes: the
    lastUpdateId and the flag stay as they are and no resync is signaled. *)
Theorem check_update_id_stale (self : Feed) (pair : string) (msg : gmap string Z)
    (a : Adapter) (u l : Z) :
  unsynced a pair ->
  last_update_id a !! pair = Some l ->
  msg !! "u" = Some u ->
  u < l ->
  _check_update_id self pair msg a = Returns (true, true) a.
Proof.
  intros Hf Hl Hu Hlt. py_eval.
Qed.

Lemma check_update_id_stale_witness :
  unsynced Sample.seeded "BTCUSDT" /\
  _check_update_id Sample.feed "BTCUSDT" (Sample.diff 90 99 0) Sample.seeded
    = Returns (true, true) Sample.seeded.
Proof.
  split; [reflexivity|].
  apply (check_update_id_stale Sample.feed "BTCUSDT" (Sample.diff 90 99 0)
           Sample.seeded 99 100); [reflexivity | reflexivity | reflexivity | lia].
Defined.

Lemma is_forced_store_forced (a : Adapter) (pair q : string) (b : bool) :
  is_forced (store_forced pair b a) q = if decide (pair = q) then b else is_forced a q.
Proof.
  unfold is_forced, store_forced. cbn [forced].
  rewrite lookup_insert. by case_decide.
Qed.

Lemma is_forced_resync (self : Feed) (a : Adapter) (q : string) :
  is_forced (resync self a) q = false.
Proof.
  unfold is_forced, resync, reset_state, Py.record. cbn [forced].
  by rewrite lookup_empty.
Qed.

Lemma last_update_id_store (a : Adapter) (pair q : string) (u : Z) :
  last_update_id (store_last_id pair u a) !! q =
  if decide (pair = q) then Some u else last_update_id a !! q.
Proof.
  unfold store_last_id. cbn [last_update_id].
  rewrite lookup_insert. by case_decide.
Qed.

(** C6. Once a symbol's flag is true, a call of [_check_update_id] sets
    it back to false only by a resync: the call then made the one reset
    and logged the one warning. While the symbol stays synced its
    lastUpdateId changes only when a diff of the symbol is applied, and is
    then that diff's [u]; so, for a diff, whose ids increase, it does not
    decrease across a call and it strictly increases on every applied
    diff. *)
Theorem sync_flag_and_update_id (self : Feed) (pair : string) (msg : gmap string Z)
    (a : Adapter) (q : string) :
  synced a q ->
  let o := _check_update_id self pair msg a in
  (unsynced (final o) q ->
     final o = resync self a /\
     trace (final o) = trace a ++
       [CallReset;
        LogWarning "%s: Missing book update detected, resetting book"
          [ArgStr (id self)]]) /\
  (synced (final o) q ->
   forall l, last_update_id a !! q = Some l ->
     exists l', last_update_id (final o) !! q = Some l' /\
       (l' <> l ->
          q = pair /\ o = Returns (false, false) (final o) /\ msg !! "u" = Some l') /\
       (ordered_ids msg ->
          l <= l' /\
          (forall f a', q = pair -> o = Returns (false, f) a' -> l < l'))).
Proof.
  intros Hq o. unfold synced, unsynced in *.
  pose proof (check_update_id_transition self pair msg a) as T.
  fold o in T.
  destruct T as [u l0 Hp Hu Hl Hlt | U u l0 Hp HU Hu Hl Hb | u l0 Hp Hl Hpu Hu
                | pu l0 Hp Hl Hpu Hne | U u l0 Hp HU Hu Hl Hlu HlU | key Hk];
    unfold synced, unsynced in *; cbn [final].
  - (* stale *)
    split; [congruence|]. intros _ l Hql. exists l. split_and!; [done|done|].
    intros _. split; [lia|]. intros f a' _ [=].
  - (* bracketing *)
    rewrite is_forced_store_forced. cbn [final].
    assert (pair <> q) as Hpq by (intros ->; congruence).
    rewrite decide_False by done.
    split; [unfold is_forced at 1; cbn [forced store_last_id]; fold (is_forced a q); congruence|].
    intros _ l Hql. exists l.
    split_and!.
    + unfold store_forced. cbn [last_update_id].
      rewrite last_update_id_store. by rewrite decide_False.
    + done.
    + intros _. split; [lia|]. intros f a' ->. done.
  - (* continuity *)
    split.
    { unfold is_forced, store_last_id. cbn [forced]. fold (is_forced a q). congruence. }
    intros _ l Hql. rewrite last_update_id_store.
    destruct (decide (pair = q)) as [->|Hpq].
    + assert (l0 = l) as -> by congruence.
      exists u. split_and!; [done | done |].
      intros Hord. specialize (Hord _ _ Hpu Hu). split; [lia|]. intros; lia.
    + exists l. split_and!; [done | done |].
      intros _. split; [lia|]. intros f a' ->. done.
  - (* gap *)
    split; [intros _; split; [done | apply trace_resync]|].
    rewrite is_forced_resync. done.
  - (* ahead of the snapshot *)
    split; [intros _; split; [done | apply trace_resync]|].
    rewrite is_forced_resync. done.
  - (* KeyError *)
    split; [congruence|]. intros _ l Hql. exists l. split_and!; [done|done|].
    intros _. split; [lia|]. intros f a' _ [=].
Qed.

Lemma sync_flag_and_update_id_witness :
  synced Sample.running "BTCUSDT" /\
  exists l', last_update_id
               (final (_check_update_id Sample.feed "BTCUSDT" (Sample.diff 104 105 103)
                         Sample.running)) !! "BTCUSDT" = Some l' /\
             103 < l'.
Proof.
  split; [reflexivity|].
  destruct (sync_flag_and_update_id Sample.feed "BTCUSDT" (Sample.diff 104 105 103)
              Sample.running "BTCUSDT") as [_ H]; [reflexivity|].
  destruct (H eq_refl 103 eq_refl) as (l' & Hl' & _ & Hord).
  exists l'. split; [exact Hl'|].
  destruct Hord as [_ Hacc].
  - intros pu u Hpu Hu. vm_compute in Hpu, Hu. injection Hpu as <-. injection Hu as <-. lia.
  - apply (Hacc false (final (_check_update_id Sample.feed "BTCUSDT"
                                (Sample.diff 104 105 103) Sample.running)));
      [reflexivity | vm_compute; reflexivity].
Defined.




(** ** The dispatcher *)

Ltac handler_unfold :=
  unfold message_handler, _open_interest, cache_get, cache_set,
    Py.item, Py.emit, Py.modify, Py.gets, Py.raise, Py.call,
    mbind, mret, py_bind, py_ret, Py.bind, Py.ret in *.

Ltac handler_step :=
  match goal with
  | H : _ !! _ = _ |- _ => progress (rewrite H; cbn)
  | H : hash_key _ = _ |- _ => progress (rewrite H; cbn)
  | H : Str.split_once _ _ = _ |- _ => progress (rewrite H; cbn)
  | H : _ = Done _ |- _ => progress (rewrite H; cbn)
  | H : _ = Failed _ |- _ => progress (rewrite H; cbn)
  | |- context [decide (is_Some None)] =>
      rewrite (decide_False (P := is_Some None)) by (by intros [? ?]); cbn
  | |- context [decide (?x = ?y)] =>
      first [ rewrite (decide_True (P := x = y)) by done
            | rewrite (decide_False (P := x = y)) by done ]; cbn
  | |- context [decide (?x <> ?y)] =>
      first [ rewrite (decide_True (P := x <> y)) by done
            | rewrite (decide_False (P := x <> y)) by (intros ?; done) ]; cbn
  end.

Ltac handler_eval := handler_unfold; cbn beta iota; repeat handler_step; try reflexivity.

Lemma upper_get (s : string) (i : nat) :
  String.get i (Str.upper s) = option_map Str.upper_char (String.get i s).
Proof.
  revert i. induction s as [|c s IH]; intros i; [reflexivity|].
  unfold Str.upper in *. cbn [Str.map String.get]. destruct i; [reflexivity|]. apply IH.
Qed.

Section DispatchFacts.

Variable OI : string.
Variable std : jvalue -> tried string.
Variable norm : string -> jvalue -> tried pyfloat.

(** What the dispatcher does with the payload of a well-formed envelope
    that carries a tag. *)
Lemma dispatch_tagged (self : Feed) (msg : gmap string jvalue)
    (conn : conn_id) (timestamp : pyfloat) (a : Adapter)
    (stream symbol channel : string) (data : gmap string field) (tag : field) :
  msg !! "openInterest" = None ->
  msg !! "stream" = Some (JField (FStr stream)) ->
  Str.split_once "@" stream = Some (symbol, channel) ->
  msg !! "data" = Some (JObject data) ->
  data !! "e" = Some tag ->
  message_handler OI std norm self msg conn timestamp a
  = Returns tt
      {| forced := forced a; last_update_id := last_update_id a;
         l2_book := l2_book a; open_interest := open_interest a;
         trace := trace a ++
           [if decide (tag = FStr "bookTicker") then Ticker data timestamp
            else if decide (tag = FStr "depthUpdate")
                 then Book conn data (Str.upper symbol) timestamp
            else if decide (tag = FStr "aggTrade") then Trade data timestamp
            else if decide (tag = FStr "forceOrder") then Liquidations data timestamp
            else if decide (tag = FStr "markPriceUpdate") then Funding data timestamp
            else if decide (tag = FStr "kline") then Candle data timestamp
            else LogWarning "%s: Unexpected message received: %s"
                   [ArgStr (id self); ArgMsg data]] |}.
Proof.
  intros Hoi Hs Hsplit Hd He. handler_unfold. cbn beta iota.
  rewrite (decide_False (P := is_Some (msg !! "openInterest")))
    by (rewrite Hoi; by intros [? ?]).
  rewrite Hs. cbn beta iota. rewrite Hsplit. cbn beta iota. rewrite Hd. cbn beta iota.
  rewrite He. unfold default. cbn [from_option]. unfold Datatypes.id.
  repeat (case_decide; [reflexivity|]). reflexivity.
Qed.


(** X10. For a well-formed envelope the five other recognized tags each
    make exactly their own handler fire, once, and nothing else:
    [depthUpdate] the book handler, with the connection and, for a stream
    name in ASCII, the text before its first [@] as symbol, each
    lower-case letter replaced by its upper-case one; [aggTrade] the trade
    normalizer; [forceOrder] liquidations; [markPriceUpdate] funding;
    [kline] candles. *)
Theorem dispatch_recognized (self : Feed) (msg : gmap string jvalue)
    (conn : conn_id) (timestamp : pyfloat) (a : Adapter)
    (stream symbol channel : string) (data : gmap string field) (tag : field) :
  msg !! "openInterest" = None ->
  msg !! "stream" = Some (JField (FStr stream)) ->
  Str.split_once "@" stream = Some (symbol, channel) ->
  msg !! "data" = Some (JObject data) ->
  data !! "e" = Some tag ->
  let o := message_handler OI std norm self msg conn timestamp a in
  (tag = FStr "depthUpdate" -> is_ascii symbol = true ->
     o = Returns tt (final o) /\
     trace (final o) = trace a ++ [Book conn data (Str.upper symbol) timestamp] /\
     (forall i, String.get i (Str.upper symbol)
                = option_map
                    (fun c : ascii =>
                       let n := nat_of_ascii c in
                       if ((97 <=? n) && (n <=? 122))%nat then ascii_of_nat (n - 32) else c)
                    (String.get i symbol))) /\
  (tag = FStr "aggTrade" ->
     o = Returns tt (final o) /\ trace (final o) = trace a ++ [Trade data timestamp]) /\
  (tag = FStr "forceOrder" ->
     o = Returns tt (final o) /\
     trace (final o) = trace a ++ [Liquidations data timestamp]) /\
  (tag = FStr "markPriceUpdate" ->
     o = Returns tt (final o) /\ trace (final o) = trace a ++ [Funding data timestamp]) /\
  (tag = FStr "kline" ->
     o = Returns tt (final o) /\ trace (final o) = trace a ++ [Candle data timestamp]).
Proof.
  intros Hoi Hs Hsplit Hd He o. unfold o.
  rewrite (dispatch_tagged self msg conn timestamp a stream symbol channel data tag)
    by done.
  cbn [final trace]. split_and!; intros ->; try done.
  intros _. split_and!; [done | done | apply upper_get].
Qed.

(** C10. For a combined-stream envelope whose payload has no [e] field
    the dispatcher raises [KeyError]: no normalizer is called and no
    warning is logged, because the last test indexes [msg['e']] after
    [msg.get('e')] gave [None]. *)
Theorem dispatch_missing_tag (self : Feed) (msg : gmap string jvalue)
    (conn : conn_id) (timestamp : pyfloat) (a : Adapter)
    (stream symbol channel : string) (data : gmap string field) :
  msg !! "openInterest" = None ->
  msg !! "stream" = Some (JField (FStr stream)) ->
  Str.split_once "@" stream = Some (symbol, channel) ->
  msg !! "data" = Some (JObject data) ->
  data !! "e" = None ->
  message_handler OI std norm self msg conn timestamp a = Raises (KeyError "e") a.
Proof.
  intros Hoi Hs Hsplit Hd He. handler_eval.
Qed.

End DispatchFacts.



Lemma dispatch_recognized_witness :
  let data : gmap string field := <["e" := FStr "depthUpdate"]> (<["u" := FInt 7]> ∅) in
  trace (final (message_handler "open_interest" Sample.std Sample.norm Sample.feed
                  (Sample.envelope "btcusdt@depth@100ms" data) "ws" 0 Sample.seeded))
  = trace Sample.seeded ++ [Book "ws" data "BTCUSDT" 0].
Proof.
  intros data.
  destruct (dispatch_recognized "open_interest" Sample.std Sample.norm Sample.feed
              (Sample.envelope "btcusdt@depth@100ms" data) "ws" 0 Sample.seeded
              "btcusdt@depth@100ms" "btcusdt" "depth@100ms" data (FStr "depthUpdate"))
    as (Hbook & _); [reflexivity..|].
  destruct (Hbook eq_refl eq_refl) as (_ & Ht & _). exact Ht.
Defined.

Lemma dispatch_missing_tag_witness :
  message_handler "open_interest" Sample.std Sample.norm Sample.feed
    (Sample.envelope "btcusdt@depth" (<["u" := FInt 7]> ∅)) "ws" 0 Sample.seeded
  = Raises (KeyError "e") Sample.seeded.
Proof.
  apply (dispatch_missing_tag "open_interest" Sample.std Sample.norm Sample.feed
           (Sample.envelope "btcusdt@depth" (<["u" := FInt 7]> ∅)) "ws" 0 Sample.seeded
           "btcusdt@depth" "btcusdt" "depth" (<["u" := FInt 7]> ∅));
    reflexivity.
Defined.

(** ** The open-interest normalizer *)

Lemma cached_store (a : Adapter) (k : field) (oi : jvalue) :
  cached (store_open_interest k oi a) k = oi.
Proof.
  unfold cached, store_open_interest. cbn [open_interest].
  by rewrite lookup_insert_eq.
Qed.

Section OpenInterestFacts.

Variable OI : string.
Variable std : jvalue -> tried string.
Variable norm : string -> jvalue -> tried pyfloat.

(** A poll whose value differs from the cached one and whose symbol and
    time the collaborators accept. *)
Lemma open_interest_changed (self : Feed) (msg : gmap string jvalue)
    (timestamp : pyfloat) (a : Adapter) (pair oi time : jvalue) (k : field)
    (symbol : string) (ts : pyfloat) :
  msg !! "symbol" = Some pair ->
  hash_key pair = Some k ->
  msg !! "openInterest" = Some oi ->
  msg !! "time" = Some time ->
  std pair = Done symbol ->
  norm (id self) time = Done ts ->
  oi <> default (JField FNone) (open_interest a !! k) ->
  _open_interest OI std norm self msg timestamp a
  = Returns tt
      {| forced := forced a; last_update_id := last_update_id a;
         l2_book := l2_book a;
         open_interest := <[k := oi]> (open_interest a);
         trace := trace a ++ [Callback OI (id self) symbol oi ts] |}.
Proof.
  intros Hp Hk Hoi Ht Hstd Hnorm Hd. handler_unfold. cbn beta iota.
  rewrite Hp. cbn beta iota. rewrite Hoi. cbn beta iota. rewrite Hk. cbn beta iota.
  rewrite (decide_True (P := oi <> cached a k)) by exact Hd.
  rewrite Hstd. cbn beta iota. rewrite Ht. cbn beta iota. rewrite Hnorm. cbn beta iota.
  reflexivity.
Qed.

(** A poll whose value is the cached one. *)
Lemma open_interest_unchanged (self : Feed) (msg : gmap string jvalue)
    (timestamp : pyfloat) (a : Adapter) (pair oi : jvalue) (k : field) :
  msg !! "symbol" = Some pair ->
  hash_key pair = Some k ->
  msg !! "openInterest" = Some oi ->
  oi = default (JField FNone) (open_interest a !! k) ->
  _open_interest OI std norm self msg timestamp a = Returns tt a.
Proof.
  intros Hp Hk Hoi Hd. handler_unfold. cbn beta iota.
  rewrite Hp. cbn beta iota. rewrite Hoi. cbn beta iota. rewrite Hk. cbn beta iota.
  by rewrite (decide_False (P := oi <> cached a k)) by (intros Hne; by apply Hne).
Qed.

(** C8. For a polled open-interest response, with a symbol and a time
    that the two collaborators accept, the normalizer forwards an event
    exactly when the received value differs from the value cached for the
    symbol, and then stores the received value in the cache; a second
    poll carrying the same value changes nothing, so two such polls emit
    at most one event, and a changed value always emits. *)
Theorem open_interest_dedup (self : Feed) (msg : gmap string jvalue)
    (timestamp timestamp' : pyfloat) (a : Adapter) (pair oi time : jvalue) (k : field)
    (symbol : string) (ts : pyfloat) :
  msg !! "symbol" = Some pair ->
  hash_key pair = Some k ->
  msg !! "openInterest" = Some oi ->
  msg !! "time" = Some time ->
  std pair = Done symbol ->
  norm (id self) time = Done ts ->
  let o := _open_interest OI std norm self msg timestamp a in
  let o' := _open_interest OI std norm self msg timestamp' (final o) in
  (oi <> default (JField FNone) (open_interest a !! k) ->
     o = Returns tt (final o) /\
     trace (final o) = trace a ++ [Callback OI (id self) symbol oi ts] /\
     open_interest (final o) = <[k := oi]> (open_interest a)) /\
  (oi = default (JField FNone) (open_interest a !! k) ->
     o = Returns tt (final o) /\
     trace (final o) = trace a /\
     open_interest (final o) = open_interest a) /\
  (o' = Returns tt (final o') /\
   trace (final o') = trace (final o) /\
   open_interest (final o') = open_interest (final o)).
Proof.
  intros Hp Hk Hoi Ht Hstd Hnorm o o'.
  destruct (decide (oi = default (JField FNone) (open_interest a !! k))) as [Hd|Hd].
  - assert (Ho : o = Returns tt a)
      by (by apply (open_interest_unchanged self msg timestamp a pair oi k)).
    assert (Ho' : o' = Returns tt a).
    { unfold o'. rewrite Ho. cbn [final].
      by apply (open_interest_unchanged self msg timestamp' a pair oi k). }
    rewrite Ho' , Ho. cbn [final]. split_and!; try done.
  - pose proof (open_interest_changed self msg timestamp a pair oi time k symbol ts
                  Hp Hk Hoi Ht Hstd Hnorm Hd) as Ho. fold o in Ho.
    assert (Ho' : o' = Returns tt (final o)).
    { unfold o'. apply (open_interest_unchanged self msg timestamp' _ pair oi k); try done.
      rewrite Ho. cbn [final open_interest]. by rewrite lookup_insert_eq. }
    rewrite Ho'. cbn [final]. rewrite Ho. cbn [final trace open_interest].
    split_and!; try done.
Qed.

End OpenInterestFacts.

Lemma open_interest_dedup_witness :
  let o := _open_interest "open_interest" Sample.std Sample.norm Sample.feed
             (Sample.poll "BTCUSDT" "10659.509") 0 Sample.seeded in
  (trace (final o)
   = trace Sample.seeded ++
     [Callback "open_interest" "BINANCE_FUTURES" "BTCUSDT" (JField (FStr "10659.509"))
        1589437530011]) /\
  (open_interest (final o)
   = <[FStr "BTCUSDT" := JField (FStr "10659.509")]> (open_interest Sample.seeded)).
Proof.
  intros o.
  destruct (open_interest_dedup "open_interest" Sample.std Sample.norm Sample.feed
              (Sample.poll "BTCUSDT" "10659.509") 0 0 Sample.seeded
              (JField (FStr "BTCUSDT")) (JField (FStr "10659.509"))
              (JField (FInt 1589437530011)) (FStr "BTCUSDT") "BTCUSDT" 1589437530011)
    as (Hnew & _ & _); [reflexivity..|].
  destruct Hnew as (_ & Ht & Hc); [intros H; vm_compute in H; discriminate H|].
  split; [exact Ht | exact Hc].
Defined.

(** ** The streaming address *)

Module StrFacts.

Lemma append_cons (c : ascii) (s t : string) : String c s +:+ t = String c (s +:+ t).
Proof. reflexivity. Qed.

Lemma append_assoc (s t r : string) : (s +:+ t) +:+ r = s +:+ t +:+ r.
Proof.
  induction s as [|c s IH]; [reflexivity|].
  rewrite !append_cons. by f_equal.
Qed.

Lemma append_nil_r (s : string) : s +:+ "" = s.
Proof.
  induction s as [|c s IH]; [reflexivity|].
  rewrite append_cons. by f_equal.
Qed.

Lemma append_eq_nil (s t : string) : s +:+ t = "" -> s = "" /\ t = "".
Proof.
  destruct s as [|c s].
  - intros H. split; [reflexivity | exact H].
  - rewrite append_cons. discriminate.
Qed.

Lemma drop_last_cons (c : ascii) (t : string) :
  t <> "" -> Str.drop_last (String c t) = String c (Str.drop_last t).
Proof. destruct t; [done | reflexivity]. Qed.

Lemma drop_last_snoc (s : string) (c : ascii) :
  Str.drop_last (s +:+ String c "") = s.
Proof.
  induction s as [|d s IH]; [reflexivity|].
  rewrite append_cons, drop_last_cons, IH; [reflexivity|].
  intros E. by apply append_eq_nil in E as [_ [=]].
Qed.

Lemma drop_last_append (s t : string) :
  t <> "" -> Str.drop_last (s +:+ t) = s +:+ Str.drop_last t.
Proof.
  intros Ht. induction s as [|c s IH]; [reflexivity|].
  rewrite !append_cons, drop_last_cons, IH; [reflexivity|].
  intros E. by apply append_eq_nil in E as [_ ?].
Qed.

End StrFacts.

Section AddressFacts.

Variables OPEN_INTEREST TICKER : string.

Lemma stream_of_name (chan pair : string) :
  stream_of TICKER chan pair = stream_name TICKER chan pair +:+ "/".
Proof.
  unfold stream_of, stream_name.
  case_decide; by rewrite !StrFacts.append_assoc.
Qed.

Lemma inner_loop (chan : string) (pairs : list string) (address : string) :
  fold_left (fun address pair => address +:+ stream_of TICKER chan pair) pairs address
  = address +:+ Str.cat (List.map (stream_of TICKER chan) pairs).
Proof.
  revert address. induction pairs as [|p pairs IH]; intros address.
  - cbn [fold_left List.map Str.cat]. by rewrite StrFacts.append_nil_r.
  - cbn [fold_left List.map Str.cat]. by rewrite IH, StrFacts.append_assoc.
Qed.

Lemma cat_app (l1 l2 : list string) : Str.cat (l1 ++ l2) = Str.cat l1 +:+ Str.cat l2.
Proof.
  induction l1 as [|s l1 IH]; [reflexivity|].
  cbn [app Str.cat]. by rewrite IH, StrFacts.append_assoc.
Qed.

Lemma outer_loop (plan : list (string * list string)) (address : string) :
  fold_left
    (fun address '(chan, pairs) =>
       if decide (chan = OPEN_INTEREST) then address
       else fold_left (fun address pair => address +:+ stream_of TICKER chan pair)
                      pairs address)
    plan address
  = address +:+ Str.cat (pieces OPEN_INTEREST TICKER plan).
Proof.
  revert address. induction plan as [|[chan pairs] plan IH]; intros address.
  - cbn [fold_left pieces flat_map Str.cat]. by rewrite StrFacts.append_nil_r.
  - cbn [fold_left pieces flat_map]. rewrite IH. case_decide; [done|].
    by rewrite inner_loop, cat_app, StrFacts.append_assoc.
Qed.

Lemma pieces_streams (f : Feed) :
  pieces OPEN_INTEREST TICKER (channel_plan f) =
  List.map (fun s => s +:+ "/") (streams OPEN_INTEREST TICKER f).
Proof.
  unfold streams, pieces. induction (channel_plan f) as [|[chan pairs] plan IH]; [reflexivity|].
  cbn [flat_map]. rewrite List.map_app, IH. f_equal.
  case_decide; [reflexivity|].
  rewrite List.map_map. apply List.map_ext. intros pair. apply stream_of_name.
Qed.

Lemma cat_slash_nil (ss : list string) :
  Str.cat (List.map (fun s => s +:+ "/") ss) = "" -> ss = [].
Proof.
  destruct ss as [|s ss]; [done|]. cbn [List.map Str.cat]. intros E.
  apply StrFacts.append_eq_nil in E as [E _].
  apply StrFacts.append_eq_nil in E as [_ [=]].
Qed.

Lemma drop_last_cat_slash (s : string) (ss : list string) :
  Str.drop_last (Str.cat (List.map (fun s => s +:+ "/") (s :: ss))) = Str.join "/" (s :: ss).
Proof.
  revert s. induction ss as [|s' ss IH]; intros s.
  - cbn [List.map Str.cat Str.join]. rewrite StrFacts.append_nil_r.
    apply StrFacts.drop_last_snoc.
  - change (Str.cat (List.map (fun s => s +:+ "/") (s :: s' :: ss)))
      with ((s +:+ "/") +:+ Str.cat (List.map (fun s => s +:+ "/") (s' :: ss))).
    rewrite StrFacts.drop_last_append.
    + rewrite IH. by rewrite StrFacts.append_assoc.
    + intros E. by apply cat_slash_nil in E.
Qed.

(** The loops of [_address] against the joined stream names. *)
Lemma address_joined (f : Feed) :
  _address OPEN_INTEREST TICKER f = address_spec OPEN_INTEREST TICKER f.
Proof.
  unfold _address, address_spec. cbv zeta.
  rewrite outer_loop, pieces_streams.
  destruct (streams OPEN_INTEREST TICKER f) as [|s ss] eqn:Hss.
  - cbn. rewrite StrFacts.append_nil_r. by rewrite decide_True.
  - rewrite decide_False.
    + f_equal. rewrite StrFacts.drop_last_append.
      * by rewrite drop_last_cat_slash, StrFacts.append_assoc.
      * intros E. by apply cat_slash_nil in E.
    + intros E. rewrite <- (StrFacts.append_nil_r (_ +:+ "/stream?streams=")) in E at 2.
      apply (inj (String.append _)) in E. by apply cat_slash_nil in E.
Qed.

Lemma flat_map_map {A B C : Type} (g : B -> list C) (h : A -> B) (l : list A) :
  flat_map g (List.map h l) = flat_map (fun x => g (h x)) l.
Proof. induction l as [|x l IH]; [reflexivity|]. cbn. by rewrite IH. Qed.

(** The stream names, read off the configuration itself. *)
Lemma streams_configured (f : Feed) :
  streams OPEN_INTEREST TICKER f =
  match subscription f with
  | [] =>
      flat_map
        (fun chan =>
           if decide (chan = OPEN_INTEREST) then []
           else List.map
                  (fun pair => Str.lower pair +:+ "@" +:+
                               (if decide (chan = TICKER) then "bookTicker" else chan))
                  (symbols f))
        (channels f)
  | _ :: _ =>
      flat_map
        (fun '(chan, pairs) =>
           if decide (chan = OPEN_INTEREST) then []
           else List.map
                  (fun pair => Str.lower pair +:+ "@" +:+
                               (if decide (chan = TICKER) then "bookTicker" else chan))
                  pairs)
        (subscription f)
  end.
Proof.
  unfold streams, channel_plan, stream_name.
  destruct (subscription f) as [|item sub]; [|reflexivity].
  by rewrite flat_map_map.
Qed.

Lemma lower_get (s : string) (i : nat) :
  String.get i (Str.lower s) = option_map Str.lower_char (String.get i s).
Proof.
  revert i. induction s as [|c s IH]; intros i; [reflexivity|].
  unfold Str.lower in *. cbn [Str.map String.get]. destruct i; [reflexivity|]. apply IH.
Qed.

(** C9. For symbols in ASCII, where [Str.lower] is [str.lower()], the
    address builder composes, after the endpoint, one stream name per
    configured channel and symbol, in the order of the configuration,
    joined by [/]: the open-interest channel contributes none, the ticker
    channel gives [<symbol>@bookTicker], every other channel
    [<symbol>@<channel>], with each upper-case letter of the symbol
    replaced by its lower-case one; when no stream is contributed the
    result is [None], not an address with an empty stream list. The
    channels and symbols are [self.channels] and [self.symbols], or the
    items of [self.subscription] when there is one. *)
Theorem address_streams (f : Feed) :
  (forall pair, In pair (symbols f) -> is_ascii pair = true) ->
  (forall chan pairs pair,
     In (chan, pairs) (subscription f) -> In pair pairs -> is_ascii pair = true) ->
  let lower_case := fun c : ascii =>
    let n := nat_of_ascii c in
    if ((65 <=? n) && (n <=? 90))%nat then ascii_of_nat (n + 32) else c in
  let name := fun chan pair : string =>
    Str.lower pair +:+ "@" +:+ (if decide (chan = TICKER) then "bookTicker" else chan) in
  let names := fun (chan : string) (pairs : list string) =>
    if decide (chan = OPEN_INTEREST) then [] else List.map (name chan) pairs in
  let ss :=
    match subscription f with
    | [] => flat_map (fun chan => names chan (symbols f)) (channels f)
    | _ :: _ => flat_map (fun '(chan, pairs) => names chan pairs) (subscription f)
    end in
  _address OPEN_INTEREST TICKER f =
    match ss with
    | [] => None
    | _ :: _ => Some (ws_endpoint f +:+ "/stream?streams=" +:+ Str.join "/" ss)
    end /\
  (_address OPEN_INTEREST TICKER f = None <-> ss = []) /\
  (forall s, In s ss <->
     exists chan pair,
       chan <> OPEN_INTEREST /\ s = name chan pair /\
       match subscription f with
       | [] => In chan (channels f) /\ In pair (symbols f)
       | _ :: _ => exists pairs, In (chan, pairs) (subscription f) /\ In pair pairs
       end) /\
  (forall pair i,
     String.get i (Str.lower pair) = option_map lower_case (String.get i pair)).
Proof.
  intros _ _ lower_case name names ss.
  assert (Hss : streams OPEN_INTEREST TICKER f = ss) by apply streams_configured.
  assert (Heq : _address OPEN_INTEREST TICKER f =
                match ss with
                | [] => None
                | _ :: _ => Some (ws_endpoint f +:+ "/stream?streams=" +:+ Str.join "/" ss)
                end).
  { rewrite address_joined. unfold address_spec. rewrite Hss. by destruct ss. }
  split_and!.
  - exact Heq.
  - rewrite Heq. destruct ss; split; done.
  - intros s. unfold ss. destruct (subscription f) as [|item sub] eqn:Hsub.
    + rewrite in_flat_map. split.
      * intros (chan & Hin & Hs). unfold names in Hs.
        case_decide; [done|]. apply in_map_iff in Hs as (pair & <- & Hp).
        by exists chan, pair.
      * intros (chan & pair & Hne & -> & Hin & Hp).
        exists chan. split; [done|]. unfold names.
        rewrite (decide_False (P := chan = OPEN_INTEREST)) by done.
        apply in_map_iff. by exists pair.
    + rewrite in_flat_map. split.
      * intros ([chan pairs] & Hin & Hs). unfold names in Hs.
        case_decide; [done|]. apply in_map_iff in Hs as (pair & <- & Hp).
        exists chan, pair. split_and!; [done | done |]. by exists pairs.
      * intros (chan & pair & Hne & -> & pairs & Hin & Hp).
        exists (chan, pairs). split; [done|]. unfold names.
        rewrite (decide_False (P := chan = OPEN_INTEREST)) by done.
        apply in_map_iff. by exists pair.
  - intros pair i. apply lower_get.
Qed.

End AddressFacts.

Lemma address_streams_witness :
  _address "open_interest" "ticker" Sample.feed
  = Some "wss://fstream.binance.com/stream?streams=btcusdt@bookTicker/ethusdt@bookTicker/btcusdt@aggTrade/ethusdt@aggTrade".
Proof.
  destruct (address_streams "open_interest" "ticker" Sample.feed) as (Heq & _).
  - intros pair [<-|[<-|[]]]; reflexivity.
  - intros chan pairs pair [].
  - exact Heq.
Defined.

(** * Further properties *)

(** ** The consistency check, branch by branch *)

Lemma bracket_outcome (self : Feed) (pair : string) (msg : gmap string Z)
    (a : Adapter) (U u l : Z) :
  unsynced a pair ->
  last_update_id a !! pair = Some l ->
  msg !! "U" = Some U ->
  msg !! "u" = Some u ->
  U <= l <= u ->
  _check_update_id self pair msg a
  = Returns (false, true) (store_forced pair true (store_last_id pair u a)).
Proof. intros Hf Hl HU Hu [? ?]. py_eval. Qed.

Lemma continue_outcome (self : Feed) (pair : string) (msg : gmap string Z)
    (a : Adapter) (u l : Z) :
  synced a pair ->
  last_update_id a !! pair = Some l ->
  msg !! "pu" = Some l ->
  msg !! "u" = Some u ->
  _check_update_id self pair msg a = Returns (false, false) (store_last_id pair u a).
Proof. intros Hf Hl Hpu Hu. py_eval. Qed.



(** X2. What a returning call tells its caller. The second component is
    the negation of the flag at call time. An applied diff (skip false)
    carries a [u], leaves the symbol Synced with lastUpdateId [u], and
    neither logs nor resets nor touches a book. A skipped diff leaves the
    adapter as it was or resynced. *)
Theorem check_update_id_returns (self : Feed) (pair : string) (msg : gmap string Z)
    (a a' : Adapter) (skip f : bool) :
  _check_update_id self pair msg a = Returns (skip, f) a' ->
  f = negb (is_forced a pair) /\
  (skip = false ->
     exists u, msg !! "u" = Some u /\ last_update_id a' !! pair = Some u /\
               synced a' pair /\ trace a' = trace a /\ l2_book a' = l2_book a) /\
  (skip = true -> a' = a \/ a' = resync self a).
Proof.
  intros Heq.
  pose proof (check_update_id_transition self pair msg a) as T.
  rewrite Heq in T.
  inversion T as [u l Hp Hu Hl Hlt | U u l Hp HU Hu Hl Hb | u l Hp Hl Hpu Hu
                 | pu l Hp Hl Hpu Hne | U u l Hp HU Hu Hl Hlu HlU | ];
    subst; unfold synced, unsynced in *; rewrite Hp; cbn [negb];
    (split; [reflexivity|]); split; intros Hs; try discriminate Hs; eauto.
  - exists u. split_and!; try done.
    + unfold store_forced. cbn [last_update_id]. rewrite last_update_id_store.
      by rewrite decide_True.
    + rewrite is_forced_store_forced. by rewrite decide_True.
  - exists u. split_and!; try done.
    rewrite last_update_id_store. by rewrite decide_True.
Qed.

Lemma check_update_id_returns_witness :
  exists u, Sample.diff 95 101 0 !! "u" = Some u /\
    last_update_id (store_forced "BTCUSDT" true (store_last_id "BTCUSDT" 101 Sample.seeded))
      !! "BTCUSDT" = Some u.
Proof.
  destruct (check_update_id_returns Sample.feed "BTCUSDT" (Sample.diff 95 101 0)
              Sample.seeded
              (store_forced "BTCUSDT" true (store_last_id "BTCUSDT" 101 Sample.seeded))
              false true) as (_ & Happlied & _); [vm_compute; reflexivity|].
  destruct (Happlied eq_refl) as (u & Hu & Hl & _). exists u. by split.
Defined.

(** X3. An exception leaves [_check_update_id] only as a [KeyError], for a
    key the diff lacks or for a symbol without a seeded lastUpdateId, and
    the adapter is then exactly as it was: no partial update. *)
Theorem check_update_id_raises (self : Feed) (pair : string) (msg : gmap string Z)
    (a a' : Adapter) (e : exn) :
  _check_update_id self pair msg a = Raises e a' ->
  a' = a /\
  exists key, e = KeyError key /\
    (msg !! key = None \/ (key = pair /\ last_update_id a !! pair = None)).
Proof.
  intros Heq.
  pose proof (check_update_id_transition self pair msg a) as T.
  rewrite Heq in T. inversion T; subst. split; [reflexivity|]. eauto.
Qed.

Lemma check_update_id_raises_witness :
  Sample.seeded = Sample.seeded /\
  exists key, KeyError "XRPUSDT" = KeyError key /\
    (Sample.diff 1 2 0 !! key = None \/
     (key = "XRPUSDT" /\ last_update_id Sample.seeded !! "XRPUSDT" = None)).
Proof.
  apply (check_update_id_raises Sample.feed "XRPUSDT" (Sample.diff 1 2 0) Sample.seeded).
  vm_compute. reflexivity.
Defined.

(** X4. While the symbol is Unsynced the check never reads [pu]: two
    diffs with the same [U] and [u] have the same outcome. While it is
    Synced the check never reads [U]: two diffs with the same [pu] and [u]
    have the same outcome. *)
Theorem check_update_id_reads (self : Feed) (pair : string) (msg msg' : gmap string Z)
    (a : Adapter) :
  msg !! "u" = msg' !! "u" ->
  (if is_forced a pair then msg !! "pu" = msg' !! "pu" else msg !! "U" = msg' !! "U") ->
  _check_update_id self pair msg a = _check_update_id self pair msg' a.
Proof.
  intros Hu Hother. py_run.
  destruct (is_forced a pair); cbn [negb]; cbn beta iota; by rewrite Hu, Hother.
Qed.

Lemma check_update_id_reads_witness :
  _check_update_id Sample.feed "BTCUSDT" (Sample.diff 95 101 0) Sample.seeded
  = _check_update_id Sample.feed "BTCUSDT" (Sample.diff 95 101 77) Sample.seeded.
Proof.
  apply (check_update_id_reads Sample.feed "BTCUSDT" (Sample.diff 95 101 0)
           (Sample.diff 95 101 77) Sample.seeded); reflexivity.
Defined.

(** X5. Redelivery is not tolerated once Synced. When a diff with
    [pu = lastUpdateId] and [u <> pu] has been applied, the same diff
    delivered again no longer continues the sequence: that second call
    skips it and resyncs. *)
Theorem duplicate_diff_resyncs (self : Feed) (pair : string) (msg : gmap string Z)
    (a : Adapter) (u l : Z) :
  synced a pair ->
  last_update_id a !! pair = Some l ->
  msg !! "pu" = Some l ->
  msg !! "u" = Some u ->
  u <> l ->
  let a1 := store_last_id pair u a in
  _check_update_id self pair msg a = Returns (false, false) a1 /\
  _check_update_id self pair msg a1 = Returns (true, false) (resync self a1).
Proof.
  intros Hf Hl Hpu Hu Hne a1. split.
  - by apply (continue_outcome self pair msg a u l).
  - apply (gap_outcome self pair msg a1 l u); try done.
    unfold a1. rewrite last_update_id_store. by rewrite decide_True.
Qed.

Lemma duplicate_diff_resyncs_witness :
  let a1 := store_last_id "BTCUSDT" 105 Sample.running in
  _check_update_id Sample.feed "BTCUSDT" (Sample.diff 104 105 103) Sample.running
    = Returns (false, false) a1 /\
  _check_update_id Sample.feed "BTCUSDT" (Sample.diff 104 105 103) a1
    = Returns (true, false) (resync Sample.feed a1).
Proof.
  apply (duplicate_diff_resyncs Sample.feed "BTCUSDT" (Sample.diff 104 105 103)
           Sample.running 105 103); [reflexivity | reflexivity | reflexivity | reflexivity | lia].
Defined.

(** X6. The hand-over from snapshot to stream. A bracketing diff applied
    while Unsynced, followed by a diff whose [pu] is the first diff's [u],
    has both diffs applied; the first call reports Unsynced, the second
    Synced, and lastUpdateId ends at the second diff's [u]. *)
Theorem bracket_then_continue (self : Feed) (pair : string) (msg1 msg2 : gmap string Z)
    (a : Adapter) (U u l u2 : Z) :
  unsynced a pair ->
  last_update_id a !! pair = Some l ->
  msg1 !! "U" = Some U ->
  msg1 !! "u" = Some u ->
  U <= l <= u ->
  msg2 !! "pu" = Some u ->
  msg2 !! "u" = Some u2 ->
  exists a1 a2,
    _check_update_id self pair msg1 a = Returns (false, true) a1 /\
    _check_update_id self pair msg2 a1 = Returns (false, false) a2 /\
    synced a2 pair /\ last_update_id a2 !! pair = Some u2 /\
    trace a2 = trace a.
Proof.
  intros Hf Hl HU Hu Hb Hpu Hu2.
  exists (store_forced pair true (store_last_id pair u a)),
         (store_last_id pair u2 (store_forced pair true (store_last_id pair u a))).
  assert (Hs : synced (store_forced pair true (store_last_id pair u a)) pair).
  { unfold synced. rewrite is_forced_store_forced. by rewrite decide_True. }
  split_and!.
  - by apply (bracket_outcome self pair msg1 a U u l).
  - apply (continue_outcome self pair msg2 _ u2 u); try done.
    unfold store_forced. cbn [last_update_id]. rewrite last_update_id_store.
    by rewrite decide_True.
  - exact Hs.
  - rewrite last_update_id_store. by rewrite decide_True.
  - reflexivity.
Qed.

Lemma bracket_then_continue_witness :
  exists a1 a2,
    _check_update_id Sample.feed "BTCUSDT" (Sample.diff 95 101 0) Sample.seeded
      = Returns (false, true) a1 /\
    _check_update_id Sample.feed "BTCUSDT" (Sample.diff 102 103 101) a1
      = Returns (false, false) a2 /\
    synced a2 "BTCUSDT" /\ last_update_id a2 !! "BTCUSDT" = Some 103 /\
    trace a2 = trace Sample.seeded.
Proof.
  apply (bracket_then_continue Sample.feed "BTCUSDT" (Sample.diff 95 101 0)
           (Sample.diff 102 103 101) Sample.seeded 95 101 100 103);
    [reflexivity | reflexivity | reflexivity | reflexivity | lia | reflexivity | reflexivity].
Defined.

(** X7. A call for one symbol that does not resync leaves every other
    symbol's flag and lastUpdateId, every book, the open-interest cache
    and the trace as they were. *)
Theorem check_update_id_frame (self : Feed) (pair : string) (msg : gmap string Z)
    (a : Adapter) (q : string) :
  q <> pair ->
  let o := _check_update_id self pair msg a in
  final o = resync self a \/
  (is_forced (final o) q = is_forced a q /\
   last_update_id (final o) !! q = last_update_id a !! q /\
   l2_book (final o) = l2_book a /\
   open_interest (final o) = open_interest a /\
   trace (final o) = trace a).
Proof.
  intros Hq o.
  pose proof (check_update_id_transition self pair msg a) as T. fold o in T.
  destruct T; cbn [final]; try (by left); right; try done.
  - rewrite is_forced_store_forced, decide_False by done.
    unfold store_forced. cbn [last_update_id l2_book open_interest trace].
    rewrite last_update_id_store, decide_False by done. done.
  - rewrite last_update_id_store, decide_False by done. done.
Qed.

Lemma check_update_id_frame_witness :
  let o := _check_update_id Sample.feed "BTCUSDT" (Sample.diff 104 105 103)
             Sample.running in
  final o = resync Sample.feed Sample.running \/
  (is_forced (final o) "ETHUSDT" = is_forced Sample.running "ETHUSDT" /\
   last_update_id (final o) !! "ETHUSDT" = last_update_id Sample.running !! "ETHUSDT" /\
   l2_book (final o) = l2_book Sample.running /\
   open_interest (final o) = open_interest Sample.running /\
   trace (final o) = trace Sample.running).
Proof.
  apply (check_update_id_frame Sample.feed "BTCUSDT" (Sample.diff 104 105 103)
           Sample.running "ETHUSDT"). discriminate.
Defined.

(** ** The open-interest normalizer, errors and frame *)

Module CaseFacts.






End CaseFacts.

Section DispatchMore.

Variable OI : string.
Variable std : jvalue -> tried string.
Variable norm : string -> jvalue -> tried pyfloat.

(** X8. An exception leaves [_open_interest] before anything is emitted
    or cached, so the adapter is exactly as it was. It is a [KeyError]
    for a missing [symbol] or [openInterest], a [TypeError] for a symbol
    that cannot be a dict key, or, only when the value differs from the
    cached one: the exception of [symbol_exchange_to_std], a [KeyError]
    for a missing [time], or the exception of [timestamp_normalize], in
    that order. *)
Theorem open_interest_raises (self : Feed) (msg : gmap string jvalue)
    (timestamp : pyfloat) (a a' : Adapter) (e : exn) :
  _open_interest OI std norm self msg timestamp a = Raises e a' ->
  a' = a /\
  ((e = KeyError "symbol" /\ msg !! "symbol" = None) \/
   (e = KeyError "openInterest" /\ msg !! "openInterest" = None) \/
   (e = TypeError /\ exists pair, msg !! "symbol" = Some pair /\ hash_key pair = None) \/
   (exists pair k oi,
      msg !! "symbol" = Some pair /\ hash_key pair = Some k /\
      msg !! "openInterest" = Some oi /\
      oi <> default (JField FNone) (open_interest a !! k) /\
      (std pair = Failed e \/
       exists symbol, std pair = Done symbol /\
         ((e = KeyError "time" /\ msg !! "time" = None) \/
          exists time, msg !! "time" = Some time /\ norm (id self) time = Failed e)))).
Proof.
  handler_unfold. cbn beta iota.
  destruct (msg !! "symbol") as [pair|] eqn:Hp; cbn beta iota;
    [|intros [= <- <-]; split; [done|]; by left].
  destruct (msg !! "openInterest") as [oi|] eqn:Hoi; cbn beta iota;
    [|intros [= <- <-]; split; [done|]; right; by left].
  destruct (hash_key pair) as [k|] eqn:Hk; cbn beta iota;
    [|intros [= <- <-]; split; [done|]; right; right; left; eauto].
  destruct (decide (oi <> cached a k)) as [Hd|Hd]; cbn beta iota; [|discriminate].
  destruct (std pair) as [symbol|e0] eqn:Hstd; cbn beta iota.
  - destruct (msg !! "time") as [time|] eqn:Ht; cbn beta iota.
    + destruct (norm (id self) time) as [ts|e1] eqn:Hnorm; cbn beta iota; [discriminate|].
      intros [= <- <-]. split; [done|]. right; right; right.
      exists pair, k, oi. split_and!; try done. right. exists symbol. split; [done|].
      right. by exists time.
    + intros [= <- <-]. split; [done|]. right; right; right.
      exists pair, k, oi. split_and!; try done. right. exists symbol. split; [done|].
      by left.
  - intros [= <- <-]. split; [done|]. right; right; right.
    exists pair, k, oi. split_and!; try done. by left.
Qed.

(** X9. A poll that returns leaves the received value cached for its
    symbol, changes no other entry of the cache, never touches the
    book-sync state or the books, and adds at most one call to the trace:
    the callback, on the open-interest channel, carrying the feed id, the
    normalized symbol, the value and the normalized time of the
    response. *)
Theorem open_interest_returns (self : Feed) (msg : gmap string jvalue)
    (timestamp : pyfloat) (a a' : Adapter) :
  _open_interest OI std norm self msg timestamp a = Returns tt a' ->
  exists pair k oi,
    msg !! "symbol" = Some pair /\ hash_key pair = Some k /\
    msg !! "openInterest" = Some oi /\
    cached a' k = oi /\
    (forall k', k' <> k -> open_interest a' !! k' = open_interest a !! k') /\
    forced a' = forced a /\ last_update_id a' = last_update_id a /\
    l2_book a' = l2_book a /\
    (trace a' = trace a \/
     exists symbol time ts,
       std pair = Done symbol /\ msg !! "time" = Some time /\
       norm (id self) time = Done ts /\
       trace a' = trace a ++ [Callback OI (id self) symbol oi ts]).
Proof.
  handler_unfold. cbn beta iota.
  destruct (msg !! "symbol") as [pair|] eqn:Hp; cbn beta iota; [|discriminate].
  destruct (msg !! "openInterest") as [oi|] eqn:Hoi; cbn beta iota; [|discriminate].
  destruct (hash_key pair) as [k|] eqn:Hk; cbn beta iota; [|discriminate].
  destruct (decide (oi <> cached a k)) as [Hd|Hd]; cbn beta iota.
  - destruct (std pair) as [symbol|e0] eqn:Hstd; cbn beta iota; [|discriminate].
    destruct (msg !! "time") as [time|] eqn:Ht; cbn beta iota; [|discriminate].
    destruct (norm (id self) time) as [ts|e1] eqn:Hnorm; cbn beta iota; [|discriminate].
    intros [= <-]. exists pair, k, oi. split_and!; try done.
    + apply cached_store.
    + intros k' Hk'. unfold store_open_interest. cbn [open_interest Py.record].
      by rewrite lookup_insert_ne.
    + right. by exists symbol, time, ts.
  - intros [= <-]. exists pair, k, oi. split_and!; try done.
    + destruct (decide (oi = cached a k)) as [->|Hne]; [done|]. by destruct Hd.
    + by left.
Qed.

(** ** The dispatcher, the malformed envelopes *)

(** X11. A message without a top-level [openInterest] that is not a
    well-formed envelope is a hard failure before any call is made: no
    [stream] gives [KeyError]; a [stream] that is not a string gives
    [AttributeError]; a stream name without [@] gives [ValueError]; no
    [data] gives [KeyError]; a [data] that is not a dict gives
    [AttributeError]. The adapter and its trace are unchanged. *)
Theorem dispatch_malformed (self : Feed) (msg : gmap string jvalue)
    (conn : conn_id) (timestamp : pyfloat) (a : Adapter) :
  msg !! "openInterest" = None ->
  let o := message_handler OI std norm self msg conn timestamp a in
  (msg !! "stream" = None -> o = Raises (KeyError "stream") a) /\
  (forall v, msg !! "stream" = Some v -> (forall s, v <> JField (FStr s)) ->
     o = Raises AttributeError a) /\
  (forall s, msg !! "stream" = Some (JField (FStr s)) ->
     Str.split_once "@" s = None -> o = Raises ValueError a) /\
  (forall s symbol channel, msg !! "stream" = Some (JField (FStr s)) ->
     Str.split_once "@" s = Some (symbol, channel) ->
     (msg !! "data" = None -> o = Raises (KeyError "data") a) /\
     (forall v, msg !! "data" = Some (JField v) -> o = Raises AttributeError a)).
Proof.
  intros Hoi o. split_and!.
  - intros Hs. unfold o. handler_eval.
  - intros v Hs Hv. unfold o. handler_eval.
    destruct v as [[| | s |]|]; try reflexivity. by destruct (Hv s).
  - intros s Hs Hsplit. unfold o. handler_eval.
  - intros s symbol channel Hs Hsplit. split.
    + intros Hd. unfold o. handler_eval.
    + intros v Hd. unfold o. handler_eval.
Qed.

(** X12. Whatever the message, an exception raised by the dispatcher or
    by the open-interest normalizer it calls leaves the adapter and its
    trace exactly as they were: nothing is emitted, cached or logged
    before the failure. *)
Theorem dispatch_raises_unchanged (self : Feed) (msg : gmap string jvalue)
    (conn : conn_id) (timestamp : pyfloat) (a a' : Adapter) (e : exn) :
  message_handler OI std norm self msg conn timestamp a = Raises e a' -> a' = a.
Proof.
  handler_unfold. cbn beta iota.
  destruct (decide (is_Some (msg !! "openInterest"))) as [Hoi|Hoi]; cbn beta iota.
  - destruct (msg !! "symbol") as [pair|]; cbn beta iota; [|by intros [= _ <-]].
    destruct (msg !! "openInterest") as [oi|]; cbn beta iota; [|by intros [= _ <-]].
    destruct (hash_key pair) as [k|]; cbn beta iota; [|by intros [= _ <-]].
    destruct (decide (oi <> cached a k)); cbn beta iota; [|discriminate].
    destruct (std pair) as [symbol|e0]; cbn beta iota; [|by intros [= _ <-]].
    destruct (msg !! "time") as [time|]; cbn beta iota; [|by intros [= _ <-]].
    destruct (norm (id self) time) as [ts|e1]; cbn beta iota;
      [discriminate | by intros [= _ <-]].
  - destruct (msg !! "stream") as [[[| | s |]|]|]; cbn beta iota;
      try (by intros [= _ <-]).
    destruct (Str.split_once "@" s) as [[symbol channel]|]; cbn beta iota;
      [|by intros [= _ <-]].
    destruct (msg !! "data") as [[v|data]|]; cbn beta iota; try (by intros [= _ <-]).
    repeat (case_decide; cbn beta iota; [discriminate|]).
    destruct (data !! "e") as [tag|]; cbn beta iota; [|by intros [= _ <-]].
    case_decide; discriminate.
Qed.


End DispatchMore.

Lemma open_interest_raises_witness :
  let msg : gmap string jvalue := <["openInterest" := JField (FStr "1.5")]> ∅ in
  final (_open_interest "open_interest" Sample.std Sample.norm Sample.feed msg 0
           Sample.running) = Sample.running.
Proof.
  intros msg.
  apply (open_interest_raises "open_interest" Sample.std Sample.norm Sample.feed msg 0
           Sample.running _ (KeyError "symbol")).
  reflexivity.
Defined.

Lemma open_interest_returns_witness :
  exists pair k oi,
    Sample.poll "BTCUSDT" "10659.509" !! "symbol" = Some pair /\ hash_key pair = Some k /\
    Sample.poll "BTCUSDT" "10659.509" !! "openInterest" = Some oi /\
    cached (final (_open_interest "open_interest" Sample.std Sample.norm Sample.feed
                     (Sample.poll "BTCUSDT" "10659.509") 0 Sample.seeded)) k = oi.
Proof.
  destruct (open_interest_returns "open_interest" Sample.std Sample.norm Sample.feed
              (Sample.poll "BTCUSDT" "10659.509") 0 Sample.seeded
              (final (_open_interest "open_interest" Sample.std Sample.norm Sample.feed
                        (Sample.poll "BTCUSDT" "10659.509") 0 Sample.seeded)))
    as (pair & k & oi & Hp & Hk & Hoi & Hc & _); [vm_compute; reflexivity|].
  by exists pair, k, oi.
Defined.

Lemma dispatch_malformed_witness :
  let msg : gmap string jvalue := <["stream" := JField (FStr "btcusdt")]> ∅ in
  message_handler "open_interest" Sample.std Sample.norm Sample.feed msg "ws" 0
    Sample.seeded
  = Raises ValueError Sample.seeded.
Proof.
  intros msg.
  destruct (dispatch_malformed "open_interest" Sample.std Sample.norm Sample.feed msg
              "ws" 0 Sample.seeded)
    as (_ & _ & Hsplit & _); [reflexivity|].
  apply (Hsplit "btcusdt"); reflexivity.
Defined.

Lemma dispatch_raises_unchanged_witness :
  final (message_handler "open_interest" Sample.std Sample.norm Sample.feed
           (<["stream" := JField (FInt 5)]> ∅) "ws" 0 Sample.running)
  = Sample.running.
Proof.
  apply (dispatch_raises_unchanged "open_interest" Sample.std Sample.norm Sample.feed
           (<["stream" := JField (FInt 5)]> ∅) "ws" 0 Sample.running _ AttributeError).
  reflexivity.
Defined.


(** ** Instruments *)

Example instrument_perpetual :
  Instrument.__init__ "perpetual" "future" "BTC-USDT"
  = Created {| Instrument.instrument_name := "BTC-USDT"; Instrument.pair := "BTC-USDT";
               Instrument.base := "BTC"; Instrument.quote := "USDT";
               Instrument.instrument_type := "perpetual";
               Instrument.expiry_date_str := None |}.
Proof. reflexivity. Qed.

Example instrument_future :
  Instrument.__init__ "perpetual" "future" "BTC-USDT_210625"
  = Created {| Instrument.instrument_name := "BTC-USDT_210625"; Instrument.pair := "BTC-USDT";
               Instrument.base := "BTC"; Instrument.quote := "USDT";
               Instrument.instrument_type := "future";
               Instrument.expiry_date_str := Some "210625" |}.
Proof. reflexivity. Qed.

Example instrument_no_quote :
  Instrument.__init__ "perpetual" "future" "BTCUSDT_210625" = IndexError.
Proof. reflexivity. Qed.

Module SplitFacts.

Lemma split_not_nil (sep : ascii) (s : string) : split sep s <> [].
Proof.
  destruct s as [|c s]; [done|]. cbn [split].
  destruct (Ascii.eqb c sep); [done|]. by destruct (split sep s).
Qed.

Lemma split_free (sep : ascii) (s : string) : free sep s -> split sep s = [s].
Proof.
  unfold free. induction s as [|c s IH]; [done|].
  cbn [split Str.split_once]. destruct (Ascii.eqb c sep); [done|].
  destruct (Str.split_once sep s) as [[? ?]|]; [done|]. intros _. by rewrite IH.
Qed.

Lemma split_append (sep : ascii) (l r : string) :
  free sep l -> split sep (l +:+ String sep r) = l :: split sep r.
Proof.
  unfold free. induction l as [|c l IH].
  - intros _. change ("" +:+ String sep r) with (String sep r).
    cbn [split]. by rewrite Ascii.eqb_refl.
  - change (String c l +:+ String sep r) with (String c (l +:+ String sep r)).
    cbn [split Str.split_once]. destruct (Ascii.eqb c sep); [done|].
    destruct (Str.split_once sep l) as [[? ?]|]; [done|]. intros _. by rewrite IH.
Qed.

(** The first segment has no separator; the text is that segment alone,
    or the segment, a separator and the text the other segments come
    from. *)
Lemma split_cons_inv (sep : ascii) (s x : string) (rest : list string) :
  split sep s = x :: rest ->
  free sep x /\
  match rest with
  | [] => s = x
  | _ :: _ => exists r, s = x +:+ String sep r /\ split sep r = rest
  end.
Proof.
  unfold free. revert x rest. induction s as [|c s IH]; intros x rest.
  - cbn [split]. by intros [= <- <-].
  - cbn [split]. destruct (Ascii.eqb_spec c sep) as [->|Hc].
    + intros [= <- <-]. split; [done|].
      pose proof (split_not_nil sep s). destruct (split sep s) eqn:E; [done|].
      exists s. by rewrite E.
    + destruct (split sep s) as [|seg rest'] eqn:E; [by destruct (split_not_nil sep s)|].
      intros [= <- <-]. destruct (IH seg rest' eq_refl) as [Hfree Hrest].
      split.
      * cbn [Str.split_once]. rewrite (proj2 (Ascii.eqb_neq c sep) Hc). by rewrite Hfree.
      * destruct rest' as [|y rest'']; [by subst|].
        destruct Hrest as (r & -> & Hr). by exists r.
Qed.

Lemma free_append (c d : ascii) (l r : string) :
  free c l -> c <> d -> free c r -> free c (l +:+ String d r).
Proof.
  unfold free. intros Hl Hcd Hr. induction l as [|e l IH].
  - change ("" +:+ String d r) with (String d r). cbn [Str.split_once].
    rewrite (proj2 (Ascii.eqb_neq d c)) by done. by rewrite Hr.
  - change (String e l +:+ String d r) with (String e (l +:+ String d r)).
    cbn [Str.split_once] in *. destruct (Ascii.eqb e c); [done|].
    destruct (Str.split_once c l) as [[? ?]|]; [done|]. by rewrite IH.
Qed.

Lemma prefix_append (a b : string) : String.prefix a (a +:+ b) = true.
Proof.
  induction a as [|c a IH]; [by destruct b|].
  change (String c a +:+ b) with (String c (a +:+ b)). cbn [String.prefix].
  by destruct (ascii_dec c c).
Qed.

Lemma prefix_refl (a : string) : String.prefix a a = true.
Proof. induction a as [|c a IH]; [done|]. cbn. by destruct (ascii_dec c c). Qed.

Lemma lit_append (c : ascii) (s : string) : String c "" +:+ s = String c s.
Proof. reflexivity. Qed.

Lemma append_cons_assoc (x y r : string) (c d : ascii) :
  x +:+ String c (y +:+ String d r) = (x +:+ String c y) +:+ String d r.
Proof.
  change (String c (y +:+ String d r)) with (String c y +:+ String d r).
  by rewrite StrFacts.append_assoc.
Qed.

End SplitFacts.

Section InstrumentFacts.

Variables PERPETURAL FUTURE : string.

(** X14. Parsing reads back what a well-formed name was composed from.
    For a base and a quote with neither [-] nor [_], [base-quote] is a
    perpetual and [base-quote_expiry], with an expiry without [_], is a
    future with that expiry; in both the pair is [base-quote]. *)
Theorem instrument_round_trip (b q e : string) :
  free "-" b -> free "_" b -> free "-" q -> free "_" q -> free "_" e ->
  Instrument.__init__ PERPETURAL FUTURE (b +:+ "-" +:+ q)
  = Created {| Instrument.instrument_name := b +:+ "-" +:+ q;
               Instrument.pair := b +:+ "-" +:+ q;
               Instrument.base := b; Instrument.quote := q;
               Instrument.instrument_type := PERPETURAL;
               Instrument.expiry_date_str := None |} /\
  Instrument.__init__ PERPETURAL FUTURE ((b +:+ "-" +:+ q) +:+ "_" +:+ e)
  = Created {| Instrument.instrument_name := (b +:+ "-" +:+ q) +:+ "_" +:+ e;
               Instrument.pair := b +:+ "-" +:+ q;
               Instrument.base := b; Instrument.quote := q;
               Instrument.instrument_type := FUTURE;
               Instrument.expiry_date_str := Some e |}.
Proof.
  intros Hb Hb' Hq Hq' He.
  change (b +:+ "-" +:+ q) with (b +:+ String "-" q).
  change ((b +:+ String "-" q) +:+ "_" +:+ e) with ((b +:+ String "-" q) +:+ String "_" e).
  assert (Hpair : free "_" (b +:+ String "-" q)) by (by apply SplitFacts.free_append).
  assert (Hdash : split "-" (b +:+ String "-" q) = [b; q]).
  { rewrite SplitFacts.split_append by done. by rewrite SplitFacts.split_free. }
  split.
  - unfold Instrument.__init__. by rewrite SplitFacts.split_free, Hdash.
  - unfold Instrument.__init__.
    rewrite SplitFacts.split_append by done.
    by rewrite (SplitFacts.split_free "_" e), Hdash.
Qed.

(** X15. A name with no [-] before its first [_] cannot be parsed: the
    constructor raises [IndexError], with or without an expiry part. *)
Theorem instrument_without_quote (p rest : string) :
  free "-" p -> free "_" p ->
  Instrument.__init__ PERPETURAL FUTURE p = IndexError /\ Instrument.__init__ PERPETURAL FUTURE (p +:+ "_" +:+ rest) = IndexError.
Proof.
  intros Hd Hu. change (p +:+ "_" +:+ rest) with (p +:+ String "_" rest). split.
  - unfold Instrument.__init__. by rewrite (SplitFacts.split_free "_"), (SplitFacts.split_free "-").
  - unfold Instrument.__init__. rewrite SplitFacts.split_append by done.
    by rewrite (SplitFacts.split_free "-").
Qed.

(** X16. What every parsed instrument satisfies. The name is kept; the
    pair has no [_] and is where the name starts; base and quote have no
    [-] and [base-quote] is where the pair starts. Without an expiry the
    instrument is a perpetual and the pair is the whole name; with one it
    is a future, the expiry has no [_], and the name starts with
    [pair_expiry]. *)
Theorem instrument_invariants (name : string) (o : Instrument.t) :
  Instrument.__init__ PERPETURAL FUTURE name = Created o ->
  Instrument.instrument_name o = name /\
  free "_" (Instrument.pair o) /\
  String.prefix (Instrument.pair o) name = true /\
  free "-" (Instrument.base o) /\ free "-" (Instrument.quote o) /\
  String.prefix (Instrument.base o +:+ "-" +:+ Instrument.quote o) (Instrument.pair o) = true /\
  match Instrument.expiry_date_str o with
  | None => Instrument.instrument_type o = PERPETURAL /\ Instrument.pair o = name
  | Some e =>
      Instrument.instrument_type o = FUTURE /\ free "_" e /\
      String.prefix (Instrument.pair o +:+ "_" +:+ e) name = true
  end.
Proof.
  unfold Instrument.__init__.
  destruct (split "_" name) as [|p0 rest] eqn:Hu; [done|].
  destruct (split "-" p0) as [|b [|q more]] eqn:Hd; [done | done |].
  intros [= <-]. cbn. rewrite !SplitFacts.lit_append.
  apply SplitFacts.split_cons_inv in Hu as [Hp0 Hrest].
  apply SplitFacts.split_cons_inv in Hd as [Hb (r & Hr & Hq)].
  apply SplitFacts.split_cons_inv in Hq as [Hq Hmore].
  assert (Hpre : String.prefix (b +:+ String "-" q) p0 = true).
  { destruct more as [|m more].
    - subst. apply SplitFacts.prefix_refl.
    - destruct Hmore as (r' & -> & _). subst p0.
      rewrite SplitFacts.append_cons_assoc. apply SplitFacts.prefix_append. }
  split_and!; try done.
  - destruct rest as [|e rest]; [subst; apply SplitFacts.prefix_refl|].
    destruct Hrest as (r0 & -> & _). apply SplitFacts.prefix_append.
  - destruct rest as [|e rest]; [by subst|].
    destruct Hrest as (r0 & -> & He).
    apply SplitFacts.split_cons_inv in He as [He Htail].
    split_and!; try done.
    destruct rest as [|e' rest].
    + subst. apply SplitFacts.prefix_refl.
    + destruct Htail as (r1 & -> & _).
      rewrite SplitFacts.append_cons_assoc. apply SplitFacts.prefix_append.
Qed.

(** X17. [get_instrument_objects] keeps the order and the names: on
    success each object is the parse of the instrument at its position;
    it raises [IndexError] exactly when some instrument cannot be
    parsed. *)
Theorem instrument_objects (instruments : list string) :
  match Instrument.get_instrument_objects PERPETURAL FUTURE instruments with
  | Created os =>
      List.map Instrument.instrument_name os = instruments /\
      Forall2 (fun name o => Instrument.__init__ PERPETURAL FUTURE name = Created o) instruments os
  | IndexError => Exists (fun name => Instrument.__init__ PERPETURAL FUTURE name = IndexError) instruments
  end.
Proof.
  induction instruments as [|name rest IH]; cbn [Instrument.get_instrument_objects].
  - split; [reflexivity | constructor].
  - destruct (Instrument.__init__ PERPETURAL FUTURE name) as [o|] eqn:Ho; [|by left].
    destruct (Instrument.get_instrument_objects PERPETURAL FUTURE rest) as [os|];
      [|by right].
    destruct IH as [Hnames Hall]. split.
    + cbn [List.map]. f_equal; [|done].
      unfold Instrument.__init__ in Ho.
      destruct (split "_" name) as [|? ?]; [done|].
      destruct (split "-" _) as [|? [|? ?]]; [done | done |]. by injection Ho as <-.
    + by constructor.
Qed.

End InstrumentFacts.

Lemma instrument_round_trip_witness :
  Instrument.__init__ "perpetual" "future" ("ETH" +:+ "-" +:+ "USDT")
  = Created {| Instrument.instrument_name := "ETH-USDT"; Instrument.pair := "ETH-USDT";
               Instrument.base := "ETH"; Instrument.quote := "USDT";
               Instrument.instrument_type := "perpetual";
               Instrument.expiry_date_str := None |}.
Proof.
  apply (instrument_round_trip "perpetual" "future" "ETH" "USDT" "210924"); reflexivity.
Defined.

Lemma instrument_without_quote_witness :
  Instrument.__init__ "perpetual" "future" "BTCUSDT" = IndexError /\
  Instrument.__init__ "perpetual" "future" ("BTCUSDT" +:+ "_" +:+ "210625") = IndexError.
Proof.
  apply (instrument_without_quote "perpetual" "future" "BTCUSDT" "210625"); reflexivity.
Defined.

Lemma instrument_invariants_witness :
  let o := {| Instrument.instrument_name := "BTC-USDT-X_210625_Q";
              Instrument.pair := "BTC-USDT-X";
              Instrument.base := "BTC"; Instrument.quote := "USDT";
              Instrument.instrument_type := "future";
              Instrument.expiry_date_str := Some "210625" |} in
  free "_" (Instrument.pair o) /\
  String.prefix (Instrument.base o +:+ "-" +:+ Instrument.quote o) (Instrument.pair o) = true.
Proof.
  intros o.
  destruct (instrument_invariants "perpetual" "future" "BTC-USDT-X_210625_Q" o)
    as (_ & Hp & _ & _ & _ & Hpre & _); [reflexivity|].
  by split.
Defined.

(** ** Construction and connections *)

Section ConnectFacts.

Variables OPEN_INTEREST TICKER : string.
Variable inherited : Type.
Variable super_connect : list inherited.

(** X18. For symbols in ASCII, the constructor sets the REST endpoint,
    overrides the streaming endpoint and builds the address from it: the
    address is the futures endpoint followed by the stream names of the
    configured channels and symbols, joined by [/]; it is absent when
    they give no stream and truthy when they give one. The channels and
    symbols are [self.channels] and [self.symbols], or the items of
    [self.subscription] when there is one. *)
Theorem init_address (f : Feed) :
  (forall pair, In pair (symbols f) -> is_ascii pair = true) ->
  (forall chan pairs pair,
     In (chan, pairs) (subscription f) -> In pair pairs -> is_ascii pair = true) ->
  let b := init OPEN_INTEREST TICKER f in
  let name := fun chan pair : string =>
    Str.lower pair +:+ "@" +:+ (if decide (chan = TICKER) then "bookTicker" else chan) in
  let names := fun (chan : string) (pairs : list string) =>
    if decide (chan = OPEN_INTEREST) then [] else List.map (name chan) pairs in
  let ss :=
    match subscription f with
    | [] => flat_map (fun chan => names chan (symbols f)) (channels f)
    | _ :: _ => flat_map (fun '(chan, pairs) => names chan pairs) (subscription f)
    end in
  rest_endpoint b = "https://fapi.binance.com/fapi/v1" /\
  ws_endpoint (feed b) = "wss://fstream.binance.com" /\
  address b =
    match ss with
    | [] => None
    | _ :: _ => Some ("wss://fstream.binance.com/stream?streams=" +:+ Str.join "/" ss)
    end /\
  match address b with
  | Some (String _ _) => ss <> []
  | _ => ss = []
  end.
Proof.
  intros _ _ b name names ss.
  assert (Ha : address b =
    match ss with
    | [] => None
    | _ :: _ => Some ("wss://fstream.binance.com/stream?streams=" +:+ Str.join "/" ss)
    end).
  { assert (Hss : streams OPEN_INTEREST TICKER (feed b) = ss)
      by (rewrite streams_configured; reflexivity).
    change (address b) with (_address OPEN_INTEREST TICKER (feed b)).
    rewrite address_joined. unfold address_spec. rewrite Hss.
    destruct ss; [done|].
    change (ws_endpoint (feed b)) with "wss://fstream.binance.com".
    by rewrite <- StrFacts.append_assoc. }
  split_and!; [reflexivity | reflexivity | exact Ha |].
  rewrite Ha. by destruct ss.
Qed.

Lemma assoc_in (k : string) (v : list string) (d : list (string * list string)) :
  NoDup (List.map fst d) -> In (k, v) d -> assoc k d = v.
Proof.
  induction d as [|[k' v'] d IH]; [done|].
  cbn [List.map fst assoc]. intros Hnd [Hin|Hin].
  - injection Hin as -> ->. by rewrite decide_True.
  - apply NoDup_cons in Hnd as [Hk' Hnd].
    rewrite decide_False; [by apply IH|].
    intros ->. apply Hk'. apply list_elem_of_In. apply in_map_iff. by exists (k, v).
Qed.

Lemma assoc_notin (k : string) (d : list (string * list string)) :
  ~ In k (List.map fst d) -> assoc k d = [].
Proof.
  induction d as [|[k' v'] d IH]; [done|].
  cbn [List.map fst assoc In]. intros Hn.
  rewrite decide_False by (intros ->; apply Hn; by left).
  apply IH. intros Hin. apply Hn. by right.
Qed.

(** The loop over the channels, which are distinct: it appends the
    polling connection once when [open_interest] is among them. *)
Lemma connect_loop (b : BinanceFutures) (l : list string) (ret : list (connection inherited)) :
  NoDup l ->
  fold_left
    (fun ret chan =>
       if decide (chan = "open_interest") then
         ret ++ [Polling inherited
                   (List.map (open_interest_url b)
                      (elements (list_to_set (connect_symbols (feed b) chan) : gset string)))
                   (id (feed b)) 60 1]
       else ret) l ret
  = ret ++
    if decide ("open_interest" ∈ l) then
      [Polling inherited
         (List.map (open_interest_url b)
            (elements (list_to_set (connect_symbols (feed b) "open_interest") : gset string)))
         (id (feed b)) 60 1]
    else [].
Proof.
  intros Hnd. revert ret. induction Hnd as [|c l Hc Hnd IH]; intros ret.
  - cbn [fold_left]. rewrite decide_False by (by intros ?%elem_of_nil).
    by rewrite app_nil_r.
  - cbn [fold_left]. destruct (decide (c = "open_interest")) as [->|Hne].
    + rewrite (decide_True (P := "open_interest" ∈ "open_interest" :: l)) by (by left).
      rewrite IH. rewrite decide_False by done. by rewrite app_nil_r.
    + rewrite IH. destruct (decide ("open_interest" ∈ l)) as [Hin|Hin].
      * rewrite decide_True; [done|]. by right.
      * rewrite decide_False; [done|]. by intros [?|?]%elem_of_cons.
Qed.

(** X19. [connect] returns the parent's streaming connections when the
    address is truthy, followed by the polling connection when, and only
    when, [open_interest] is among [self.channels] (or, without channels,
    among the channels of the subscription); it is added once, however
    often the channel is listed, with delay 60 and sleep 1. Its addresses
    are the open-interest URL of each symbol, each symbol once: the
    symbols of [self.symbols] or, without them, those the subscription
    gives for [open_interest]; when it gives none the polling connection
    has no address. *)
Theorem connect_polling (b : BinanceFutures) :
  let f := feed b in
  let base :=
    match address b with
    | Some (String _ _) => List.map (Inherited inherited) super_connect
    | _ => []
    end in
  let chans :=
    match channels f with
    | [] => List.map fst (subscription f)
    | _ :: _ => channels f
    end in
  let url := fun pair : string => rest_endpoint b +:+ "/openInterest?symbol=" +:+ pair in
  exists addrs,
    connect inherited super_connect b =
      base ++ (if decide ("open_interest" ∈ chans)
               then [Polling inherited addrs (id f) 60 1] else []) /\
    NoDup addrs /\
    (symbols f <> [] ->
     forall x, In x addrs <-> exists pair, In pair (symbols f) /\ x = url pair) /\
    (symbols f = [] ->
     forall pairs, NoDup (List.map fst (subscription f)) ->
       In ("open_interest", pairs) (subscription f) ->
       forall x, In x addrs <-> exists pair, In pair pairs /\ x = url pair) /\
    (symbols f = [] -> ~ In "open_interest" (List.map fst (subscription f)) ->
     addrs = []).
Proof.
  intros f base chans url.
  exists (List.map (open_interest_url b)
            (elements (list_to_set (connect_symbols f "open_interest") : gset string))).
  assert (Hmem : forall pairs x,
            connect_symbols f "open_interest" = pairs ->
            In x (List.map (open_interest_url b)
                    (elements (list_to_set (connect_symbols f "open_interest") : gset string)))
            <-> exists pair, In pair pairs /\ x = url pair).
  { intros pairs x ->. rewrite in_map_iff. split.
    - intros (pair & <- & Hin). exists pair. split; [|done].
      by apply list_elem_of_In, elem_of_elements, elem_of_list_to_set, list_elem_of_In in Hin.
    - intros (pair & Hin & ->). exists pair. split; [done|].
      by apply list_elem_of_In, elem_of_elements, elem_of_list_to_set, list_elem_of_In. }
  split_and!.
  - unfold connect. rewrite connect_loop by apply NoDup_elements.
    fold f. f_equal.
    + unfold base, truthy. by destruct (address b) as [[|? ?]|].
    + assert (Hc : connect_channels f = chans)
        by (unfold connect_channels, chans; by destruct (channels f)).
      rewrite Hc.
      destruct (decide ("open_interest" ∈ chans)) as [Hin|Hin].
      * rewrite decide_True; [done|]. by apply elem_of_elements, elem_of_list_to_set.
      * rewrite decide_False; [done|].
        by intros ?%elem_of_elements%elem_of_list_to_set.
  - change (List.map (open_interest_url b) ?l) with (open_interest_url b <$> l).
    apply NoDup_fmap_2; [|apply NoDup_elements].
    intros p p' E. unfold open_interest_url in E.
    by apply (inj (String.append _)), (inj (String.append _)) in E.
  - intros Hs x. apply Hmem. unfold connect_symbols. by destruct (symbols f).
  - intros Hs pairs Hnd Hin x. apply Hmem. unfold connect_symbols. rewrite Hs.
    by apply assoc_in.
  - intros Hs Hn. unfold connect_symbols. rewrite Hs, assoc_notin by done.
    reflexivity.
Qed.

End ConnectFacts.

Lemma init_address_witness :
  address (init "open_interest" "ticker" Sample.feed)
  = Some "wss://fstream.binance.com/stream?streams=btcusdt@bookTicker/ethusdt@bookTicker/btcusdt@aggTrade/ethusdt@aggTrade".
Proof.
  destruct (init_address "open_interest" "ticker" Sample.feed) as (_ & _ & Ha & _).
  - intros pair [<-|[<-|[]]]; reflexivity.
  - intros chan pairs pair [].
  - exact Ha.
Defined.

Lemma connect_polling_witness :
  exists addrs,
    connect string ["streaming"] (init "open_interest" "ticker" Sample.feed)
    = [Inherited string "streaming"; Polling string addrs "BINANCE_FUTURES" 60 1] /\
    (forall x, In x addrs <->
       x = "https://fapi.binance.com/fapi/v1/openInterest?symbol=BTCUSDT" \/
       x = "https://fapi.binance.com/fapi/v1/openInterest?symbol=ETHUSDT").
Proof.
  destruct (connect_polling string ["streaming"] (init "open_interest" "ticker" Sample.feed))
    as (addrs & Hc & _ & Hs & _).
  exists addrs. split.
  - rewrite Hc. vm_compute. reflexivity.
  - intros x. rewrite (Hs ltac:(discriminate) x). split.
    + intros (pair & [<-|[<-|[]]] & ->); [by left | by right].
    + intros [->| ->]; [exists "BTCUSDT" | exists "ETHUSDT"];
        (split; [cbn; tauto | reflexivity]).
Defined.
